(** * predictor.py: cardiovascular-risk prediction page

    A shallow embedding of [src/predictor.py], the single Streamlit script
    of the repository: the input form, the submitted block (rounding, model
    evaluation, percentile thresholds, risk tier, displayed text) and the
    choice of the SHAP attribution that feeds the force plot.

    Numbers.  A finite Python float is modelled by the rational [Q] it
    stands for; float comparison is the comparison of the rationals, so
    every branch of the script is taken as in the source.  The float
    operations of the script itself, rounding to two decimals ([round(x, 2)]
    and [DataFrame.round(2)]) and the product [p * 100], are modelled with
    their rounding ([Py.double]: the nearest binary64 number).  Inside
    [np.percentile] and [Series.median] the interpolation and the mean are
    modelled without rounding error; infinities are outside the model, and
    the NaN of a pandas reduction of an empty column is modelled by
    [None].

    Libraries.  [model.predict_proba], [shap.TreeExplainer] and the rendering
    of the force plot are opaque and enter as parameters.  [np.percentile],
    [DataFrame.round], [round], [int], [Series.min], [Series.median], the
    [%.2f] format and the widgets of Streamlit, with the checks Streamlit
    makes on their arguments, are modelled after their documented
    behaviour. *)

From Stdlib Require Import String Ascii List ZArith QArith Qround Qabs Qpower.
From Stdlib Require Import Lia Lqa Bool DecimalString.
Import ListNotations.

Open Scope string_scope.
Open Scope Q_scope.

(** ** Exceptions *)

(** A Python computation returns a value or raises; an exception is named by
    its class. *)
Inductive result (A : Type) : Type :=
| Ok (a : A)
| Raise (exn : string).
Arguments Ok {A} a.
Arguments Raise {A} exn.

Definition bind {A B : Type} (r : result A) (k : A -> result B) : result B :=
  match r with
  | Ok a => k a
  | Raise e => Raise e
  end.

Notation "x <- r ;; k" := (bind r (fun x => k))
  (at level 61, r at next level, right associativity).

(** ** Python and NumPy numerics *)

Module Py.

(** [int(x)] on a float: truncation towards zero; [int(nan)] raises. *)
Definition int (x : option Q) : result Z :=
  match x with
  | Some v => Ok (Z.quot (Qnum v) (Zpos (Qden v)))
  | None => Raise "ValueError"
  end.

(** [np.rint]: the nearest integer, ties to the even one. *)
Definition rint (x : Q) : Z :=
  let f := Qfloor x in
  match Qcompare (x - inject_Z f) (1 # 2) with
  | Lt => f
  | Gt => (f + 1)%Z
  | Eq => if Z.even f then f else (f + 1)%Z
  end.

(** The exponent of the leading bit of a positive number: [2 ^ ilog2 x <= x
    < 2 ^ (ilog2 x + 1)]. *)
Definition ilog2 (x : Q) : Z :=
  if Qle_bool 1 x then Z.log2 (Qfloor x)
  else (- Z.log2_up (Qceiling (/ x)))%Z.

(** The exponent of the last bit of the binary64 significand of [x]: 53 bits
    from the leading one, never below the exponent of the subnormals. *)
Definition ulp_exponent (x : Q) : Z := Z.max (ilog2 (Qabs x) - 52) (-1074).

(** The float a result is stored in: the binary64 number nearest to [x],
    ties to the even significand.  Results beyond the largest float, which
    are infinite in Python, are outside the model. *)
Definition double (x : Q) : Q :=
  if Qeq_bool x 0 then 0
  else let e := ulp_exponent x in
       inject_Z (rint (x / 2 ^ e)) * 2 ^ e.

(** [np.round(x, 2)], which is what [DataFrame.round(2)] does to a cell and
    [round(x, 2)] to a NumPy float: [np.rint(x * 100.0) / 100.0], the product
    and the quotient being float operations. *)
Definition round2 (x : Q) : Q :=
  double (inject_Z (rint (double (x * 100))) / 100).

(** [seq[i]] with Python's negative indices. *)
Definition index {A : Type} (l : list A) (i : Z) : result A :=
  let n := Z.of_nat (length l) in
  let j := if (i <? 0)%Z then (n + i)%Z else i in
  if ((0 <=? j)%Z && (j <? n)%Z)%bool then
    match nth_error l (Z.to_nat j) with
    | Some a => Ok a
    | None => Raise "IndexError"
    end
  else Raise "IndexError".

End Py.

(** ** np.percentile (method "linear") *)

Module Np.

Fixpoint insert (x : Q) (l : list Q) : list Q :=
  match l with
  | [] => [x]
  | y :: t => if Qle_bool x y then x :: l else y :: insert x t
  end.

(** The array in ascending order.  NumPy only partitions the array around
    the two indices it reads; the entries at those indices are the ones of
    the sorted array. *)
Fixpoint sort (l : list Q) : list Q :=
  match l with
  | [] => []
  | x :: t => insert x (sort t)
  end.

(** [_lerp(a, b, t)]. *)
Definition lerp (a b t : Q) : Q :=
  let diff_b_a := b - a in
  if Qle_bool (1 # 2) t then b - diff_b_a * (1 - t) else a + diff_b_a * t.

(** [_get_indexes]: the neighbours of the virtual index, [-1] (the last
    entry) at or above the upper end and [0] below the lower end. *)
Definition get_indexes (virtual_index : Q) (values_count : Z) : Z * Z :=
  let previous := Qfloor virtual_index in
  let next := (previous + 1)%Z in
  let '(previous, next) :=
    if Qle_bool (inject_Z (values_count - 1)) virtual_index
    then ((-1)%Z, (-1)%Z) else (previous, next) in
  if negb (Qle_bool 0 virtual_index) then (0%Z, 0%Z) else (previous, next).

(** [_quantile(arr, q)] for one quantile [q] of a one-dimensional array. *)
Definition quantile (arr : list Q) (q : Q) : result Q :=
  let values_count := Z.of_nat (length arr) in
  let virtual_index := inject_Z (values_count - 1) * q in
  let '(previous_index, next_index) := get_indexes virtual_index values_count in
  let arr := sort arr in
  previous <- Py.index arr previous_index ;;
  next <- Py.index arr next_index ;;
  let gamma := virtual_index - inject_Z previous_index in
  Ok (lerp previous next gamma).

(** [np.percentile(a, q)]. *)
Definition percentile (a : list Q) (q : Q) : result Q :=
  let q := q / 100 in
  if (Qle_bool 0 q && Qle_bool q 1)%bool then quantile a q
  else Raise "ValueError".

End Np.

(** ** Formatting *)

Module Fmt.

Definition digits (n : Z) : string :=
  DecimalString.NilZero.string_of_uint (N.to_uint (Z.to_N n)).

(** Two digits, zero padded. *)
Definition digits2 (n : Z) : string :=
  if (n <? 10)%Z then "0" ++ digits n else digits n.

(** [format(x, ".2f")]: the decimal nearest to [x] with two places, ties to
    even, with the sign of [x]. *)
Definition format_2f (x : Q) : string :=
  let n := Py.rint (Qabs x * 100) in
  (if negb (Qle_bool 0 x) then "-" else "")
    ++ digits (n / 100) ++ "." ++ digits2 (n mod 100).

End Fmt.

(** ** pandas *)

Module Pd.

(** A frame: the column labels and the rows, one cell per column. *)
Record DataFrame : Type := mkDataFrame {
  columns : list string;
  rows : list (list Q)
}.

Fixpoint position (col : string) (cols : list string) : option nat :=
  match cols with
  | [] => None
  | c :: t => if String.eqb c col then Some O
              else option_map S (position col t)
  end.

(** [df[col]]: the cells of one column. *)
Definition getitem (df : DataFrame) (col : string) : result (list Q) :=
  match position col (columns df) with
  | Some i => Ok (map (fun r => nth i r 0) (rows df))
  | None => Raise "KeyError"
  end.

(** [series.iloc[0]]. *)
Definition iloc0 (s : list Q) : result Q := Py.index s 0%Z.

(** [series.min()]: NaN on an empty series. *)
Definition min (s : list Q) : option Q :=
  match s with
  | [] => None
  | x :: t => Some (fold_left (fun m y => if Qle_bool m y then m else y) t x)
  end.

(** [series.max()]: NaN on an empty series. *)
Definition max (s : list Q) : option Q :=
  match s with
  | [] => None
  | x :: t => Some (fold_left (fun m y => if Qle_bool y m then m else y) t x)
  end.

(** [series.median()]: NaN on an empty series, the middle value of the
    sorted series, the mean of the two middle values for an even count. *)
Definition median (s : list Q) : option Q :=
  match s with
  | [] => None
  | _ =>
    let srt := Np.sort s in
    let n := length srt in
    let h := Nat.div n 2 in
    if Nat.even n then Some ((nth (h - 1) srt 0 + nth h srt 0) / 2)
    else Some (nth h srt 0)
  end.

(** [df.round(2)]: every float cell is rounded.  (A column of integers, as
    the Hypertension column of the input frame is, is left as it is; so are
    its cells 0 and 1 by [Py.round2].) *)
Definition round (df : DataFrame) : DataFrame :=
  mkDataFrame (columns df) (map (map Py.round2) (rows df)).

End Pd.

(** [round(x, 2)] of a float that may be NaN. *)
Definition round_opt (x : option Q) : option Q := option_map Py.round2 x.

(** ** The model and its explainer *)

(** A NumPy value: a scalar or an array of values. *)
#[warnings="-register-all"]
Inductive ndarray : Type :=
| Scalar (x : Q)
| Array (items : list ndarray).

(** What [explainer.shap_values] returns: a Python list with one array per
    class, or a single array. *)
Inductive shap_output : Type :=
| ShapList (per_class : list ndarray)
| ShapArray (a : ndarray).

Record Explainer : Type := mkExplainer {
  shap_values : Pd.DataFrame -> shap_output;
  expected_value : ndarray
}.

(** The pickled classifier: the class probabilities [(P(class 0), P(class 1))]
    of one row, and the explainer [shap.TreeExplainer] builds from it. *)
Record Model : Type := mkModel {
  predict_row : list Q -> Q * Q;
  TreeExplainer : Explainer
}.

(** [model.predict_proba(df)]: one pair of class probabilities per row. *)
Definition predict_proba (model : Model) (df : Pd.DataFrame) : list (Q * Q) :=
  map (predict_row model) (Pd.rows df).

(** [a[1]] on a NumPy value; a NumPy scalar cannot be indexed. *)
Definition item1 (a : ndarray) : result ndarray :=
  match a with
  | Array items => Py.index items 1%Z
  | Scalar _ => Raise "IndexError"
  end.

(** What [shap.force_plot] draws. *)
Record Figure : Type := mkFigure {
  base_value : ndarray;
  fig_shap_values : ndarray;
  features : Pd.DataFrame
}.

(** ** The page, the browser and the files *)

(** A number handed to a widget, with its Python type: an [int] or a
    [float], which may be NaN. *)
Inductive number : Type :=
| PyInt (n : Z)
| PyFloat (x : option Q).

(** What the script puts on the page, in order. *)
Inductive element : Type :=
| Title (body : string)
| Caption (body : string)
| Subheader (body : string)
| Selectbox (label : string) (options : list Q) (index : nat)
| NumberInput (label : string) (value min_value max_value step : number)
| FormSubmitButton (label : string)
| Dataframe (data : Pd.DataFrame)
| Markdown (body : string)
| Image (content : Figure).

(** The browser's side of one run, by the label of the widget: the number
    held by a number input, the position selected in a select box, and
    whether the form was submitted. *)
Record Browser : Type := mkBrowser {
  entry : string -> Q;
  choice : string -> nat;
  submit_clicked : bool
}.

(** The three files the script names. *)
Record Files : Type := mkFiles {
  LGB_pkl : option Model;
  x_test_csv : option Pd.DataFrame;
  shap_force_plot_png : option Figure
}.

Record State : Type := mkState {
  page : list element;
  files : Files
}.

(** A run threads the page and the files and may raise. *)
Definition M (A : Type) : Type := State -> result A * State.

Definition ret {A : Type} (a : A) : M A := fun s => (Ok a, s).

Definition mbind {A B : Type} (m : M A) (k : A -> M B) : M B :=
  fun s => match m s with
           | (Ok a, s') => k a s'
           | (Raise e, s') => (Raise e, s')
           end.

Definition lift {A : Type} (r : result A) : M A := fun s => (r, s).

Notation "x <-- m ;;; k" := (mbind m (fun x => k))
  (at level 61, m at next level, right associativity).
Notation "m ;;; k" := (mbind m (fun _ => k))
  (at level 61, right associativity).

Definition render (e : element) : M unit :=
  fun s => (Ok tt, mkState (page s ++ [e]) (files s)).

Module St.

Definition title (body : string) : M unit := render (Title body).
Definition caption (body : string) : M unit := render (Caption body).
Definition subheader (body : string) : M unit := render (Subheader body).
Definition markdown (body : string) : M unit := render (Markdown body).
Definition dataframe (data : Pd.DataFrame) : M unit := render (Dataframe data).

(** [st.selectbox]: the default position has to exist; the value is the
    option at the position the browser selected, [options[idx]]. *)
Definition selectbox (b : Browser) (label : string) (options : list Q)
    (index : nat) : M Q :=
  if (index <? length options)%nat then
    v <-- lift (Py.index options (Z.of_nat (choice b label))) ;;;
    render (Selectbox label options index) ;;;
    ret v
  else lift (Raise "StreamlitAPIException").

Definition is_int (a : number) : bool :=
  match a with PyInt _ => true | PyFloat _ => false end.

Definition is_float (a : number) : bool :=
  match a with PyInt _ => false | PyFloat _ => true end.

(** [a > b] in Python: false when one of them is NaN. *)
Definition gt (a b : number) : bool :=
  let val n := match n with PyInt k => Some (inject_Z k) | PyFloat x => x end in
  match val a, val b with
  | Some x, Some y => negb (Qle_bool x y)
  | _, _ => false
  end.

(** [st.number_input] with [value], [min_value], [max_value] and [step]
    given.  Streamlit first checks its arguments: the four numbers have to
    be all [int] or all [float], and the default value has to lie between
    the bounds.  Then the widget is put on the page and returns the number
    the browser holds for it. *)
Definition number_input (b : Browser) (label : string)
    (value min_value max_value step : number) : M Q :=
  let number_input_args := [min_value; max_value; value; step] in
  let all_int_args := forallb is_int number_input_args in
  let all_float_args := forallb is_float number_input_args in
  if (negb all_int_args && negb all_float_args)%bool then
    lift (Raise "StreamlitMixedNumericTypesError")
  else if gt min_value value then
    lift (Raise "StreamlitValueBelowMinError")
  else if gt value max_value then
    lift (Raise "StreamlitValueAboveMaxError")
  else
    render (NumberInput label value min_value max_value step) ;;;
    ret (entry b label).

Definition form_submit_button (b : Browser) (label : string) : M bool :=
  render (FormSubmitButton label) ;;; ret (submit_clicked b).

(** [st.image(path)] shows the picture stored in the file. *)
Definition image_shap_force_plot : M unit :=
  fun s => match shap_force_plot_png (files s) with
           | Some fig => render (Image fig) s
           | None => (Raise "FileNotFoundError", s)
           end.

End St.

(** [joblib.load('LGB.pkl')]. *)
Definition joblib_load_LGB : M Model :=
  fun s => match LGB_pkl (files s) with
           | Some m => (Ok m, s)
           | None => (Raise "FileNotFoundError", s)
           end.

(** [pd.read_csv('x_test.csv')]. *)
Definition read_csv_x_test : M Pd.DataFrame :=
  fun s => match x_test_csv (files s) with
           | Some d => (Ok d, s)
           | None => (Raise "FileNotFoundError", s)
           end.

(** [plt.savefig("shap_force_plot.png")]. *)
Definition savefig_shap_force_plot (fig : Figure) : M unit :=
  fun s => (Ok tt,
            mkState (page s)
              (mkFiles (LGB_pkl (files s)) (x_test_csv (files s)) (Some fig))).

(** ** The script *)

Definition feature_names : list string :=
  [ "Age (years)";
    "Hypertension";
    "IMT (mm)";
    "TyG index";
    "Carotid plaque burden";
    "Plaque thickness (mm)" ].

(** [int(X_test[col].min())]. *)
Definition int_min (X_test : Pd.DataFrame) (col : string) : result Z :=
  s <- Pd.getitem X_test col ;;
  Py.int (Pd.min s).

(** [round(X_test[col].median(), 2)]. *)
Definition round_median (X_test : Pd.DataFrame) (col : string)
  : result (option Q) :=
  s <- Pd.getitem X_test col ;;
  Ok (round_opt (Pd.median s)).

(** The body of the loop over the feature names: one widget per feature. *)
Definition widget (b : Browser) (X_test : Pd.DataFrame) (col : string) : M Q :=
  if String.eqb col "Hypertension" then
    St.selectbox b col [0; 1] 0
  else if String.eqb col "Age (years)" then
    min_val <-- lift (int_min X_test "Age (years)") ;;;
    let max_val := 100%Z in
    default_val <-- lift (round_median X_test "Age (years)") ;;;
    St.number_input b col (PyFloat default_val) (PyInt min_val) (PyInt max_val)
      (PyFloat (Some 1))
  else if String.eqb col "Carotid plaque burden" then
    min_val <-- lift (int_min X_test col) ;;;
    let max_val := 15%Z in
    default_val <-- lift (round_median X_test col) ;;;
    St.number_input b col (PyFloat default_val) (PyInt min_val) (PyInt max_val)
      (PyFloat (Some 1))
  else if String.eqb col "Plaque thickness (mm)" then
    let min_val := 0 in
    let max_val := 7 in
    default_val <-- lift (round_median X_test col) ;;;
    St.number_input b col (PyFloat default_val) (PyFloat (Some min_val))
      (PyFloat (Some max_val)) (PyFloat (Some (Py.double (1 # 10))))
  else if String.eqb col "IMT (mm)" then
    let min_val := 0 in
    let max_val := 15 # 10 in
    let default_val := 0 in
    St.number_input b col (PyFloat (Some default_val)) (PyFloat (Some min_val))
      (PyFloat (Some max_val)) (PyFloat (Some (Py.double (1 # 10))))
  else if String.eqb col "TyG index" then
    let min_val := 0 in
    let max_val := 15 in
    let default_val := 0 in
    St.number_input b col (PyFloat (Some default_val)) (PyFloat (Some min_val))
      (PyFloat (Some max_val)) (PyFloat (Some (Py.double (1 # 100))))
  else
    s <-- lift (Pd.getitem X_test col) ;;;
    let min_val := Pd.min s in
    s <-- lift (Pd.getitem X_test col) ;;;
    let max_val := Pd.max s in
    default_val <-- lift (round_median X_test col) ;;;
    St.number_input b col (PyFloat default_val) (PyFloat min_val)
      (PyFloat max_val) (PyFloat (Some (Py.double (1 # 10)))).

(** [for col in feature_names: inputs.append(...)]. *)
Fixpoint form_inputs (b : Browser) (X_test : Pd.DataFrame)
    (cols : list string) : M (list Q) :=
  match cols with
  | [] => ret []
  | col :: rest =>
      v <-- widget b X_test col ;;;
      vs <-- form_inputs b X_test rest ;;;
      ret (v :: vs)
  end.

(** [pd.DataFrame([inputs], columns=feature_names)]. *)
Definition frame_of_inputs (inputs : list Q) : result Pd.DataFrame :=
  if Nat.eqb (length inputs) (length feature_names)
  then Ok (Pd.mkDataFrame feature_names [inputs])
  else Raise "ValueError".

(** Lines 96-103: the one-row frame built from the cells of [input_data]. *)
Definition prepare_model_input (input_data : Pd.DataFrame)
  : result Pd.DataFrame :=
  let cell col := (s <- Pd.getitem input_data col ;; Pd.iloc0 s) in
  age <- cell "Age (years)" ;;
  hypertension <- cell "Hypertension" ;;
  imt <- cell "IMT (mm)" ;;
  tyg <- cell "TyG index" ;;
  burden <- cell "Carotid plaque burden" ;;
  thickness <- cell "Plaque thickness (mm)" ;;
  Ok (Pd.mkDataFrame
        [ "Age (years)"; "Hypertension"; "IMT (mm)"; "TyG index";
          "Carotid plaque burden"; "Plaque thickness (mm)" ]
        [ [age; hypertension; imt; tyg; burden; thickness] ]).

Definition LOW_RISK : string := "**🟢 LOW RISK**".
Definition MODERATE_RISK : string := "**🟡 MODERATE RISK**".
Definition HIGH_RISK : string := "**🔴 HIGH RISK**".

(** Lines 113-121: the tier and its advice. *)
Definition stratify (p low_threshold mid_threshold : Q) : string * string :=
  if Qle_bool p low_threshold then
    (LOW_RISK,
     "Please continue to maintain a healthy lifestyle and attend regular follow-up visits.")
  else if Qle_bool p mid_threshold then
    (MODERATE_RISK,
     "It is advised to monitor your condition closely and consider preventive interventions.")
  else
    (HIGH_RISK,
     "It is recommended to consult a physician promptly and take proactive medical measures.").

(** The locals of lines 105-121. *)
Record Classification : Type := mkClassification {
  predicted_proba : Q * Q;
  probability : Q;
  low_threshold : Q;
  mid_threshold : Q;
  risk_level : string;
  suggestion : string
}.

(** Lines 105-121: prediction and risk stratification by percentile. *)
Definition classify (model : Model) (X_test model_input : Pd.DataFrame)
  : result Classification :=
  predicted_proba <- Py.index (predict_proba model model_input) 0%Z ;;
  let probability := Py.double (snd predicted_proba * 100) in
  let y_probs := map snd (predict_proba model X_test) in
  low_threshold <- Np.percentile y_probs (5394 # 100) ;;
  mid_threshold <- Np.percentile y_probs (899 # 10) ;;
  let '(risk_level, suggestion) :=
    stratify (snd predicted_proba) low_threshold mid_threshold in
  Ok (mkClassification predicted_proba probability low_threshold
        mid_threshold risk_level suggestion).

(** Lines 134-139: the attribution and base value that are plotted. *)
Definition select_attribution (shap_values : shap_output)
    (expected_value : ndarray) : result (ndarray * ndarray) :=
  match shap_values with
  | ShapList per_class =>
      shap_value_sample <- Py.index per_class 1%Z ;;
      expected_value <- item1 expected_value ;;
      Ok (shap_value_sample, expected_value)
  | ShapArray a =>
      Ok (a, expected_value)
  end.

Definition nl : string := String (ascii_of_nat 10) EmptyString.

(** Lines 89-151: what runs once the form is submitted. *)
Definition submitted_block (model : Model) (X_test : Pd.DataFrame)
    (inputs : list Q) : M unit :=
  input_data <-- lift (frame_of_inputs inputs) ;;;
  let input_data := Pd.round input_data in
  St.subheader "Model Input Features" ;;;
  St.dataframe input_data ;;;
  model_input <-- lift (prepare_model_input input_data) ;;;
  c <-- lift (classify model X_test model_input) ;;;
  St.subheader "Prediction Result & Explanation" ;;;
  St.markdown ("**Estimated probability:** "
                 ++ Fmt.format_2f (probability c) ++ "%") ;;;
  St.markdown (risk_level c ++ nl ++ nl ++ suggestion c) ;;;
  St.subheader "SHAP Force Plot Explanation" ;;;
  let explainer := TreeExplainer model in
  let shap_values := shap_values explainer model_input in
  sel <-- lift (select_attribution shap_values (expected_value explainer)) ;;;
  let force_plot := mkFigure (snd sel) (fst sel) model_input in
  savefig_shap_force_plot force_plot ;;;
  St.image_shap_force_plot.

(** The whole script, run once per interaction. *)
Definition script (b : Browser) : M unit :=
  St.title "Prediction of Cardiovascular Risk in New–onset T2D" ;;;
  St.caption "Based on TyG Index and Carotid Ultrasound Features" ;;;
  model <-- joblib_load_LGB ;;;
  X_test <-- read_csv_x_test ;;;
  St.subheader "Please enter the following clinical and ultrasound features:" ;;;
  inputs <-- form_inputs b X_test feature_names ;;;
  submitted <-- St.form_submit_button b "Submit Prediction" ;;;
  if submitted then submitted_block model X_test inputs else ret tt.

(** One run from an empty page. *)
Definition run (b : Browser) (fs : Files) : result unit * State :=
  script b (mkState [] fs).

(** * Definitions used in the statements *)

(** A list in ascending order. *)
Inductive ascending : list Q -> Prop :=
| ascending_nil : ascending []
| ascending_cons (x : Q) (l : list Q) :
    (forall y, In y l -> x <= y) -> ascending l -> ascending (x :: l).

(** The value read off the sorted array at a virtual index: the last entry
    from the upper end on, the interpolation of the two neighbours below. *)
Definition interpolate (s : list Q) (v : Q) : Q :=
  if Qle_bool (inject_Z (Z.of_nat (length s) - 1)) v
  then nth (length s - 1) s 0
  else
    let i := Z.to_nat (Qfloor v) in
    nth i s 0 + (nth (S i) s 0 - nth i s 0) * (v - inject_Z (Qfloor v)).

(** The one-row frame of the six numbers a browser holds, in the order of
    the features, each rounded to two decimals. *)
Definition model_input_of (b : Browser) : Pd.DataFrame :=
  Pd.mkDataFrame feature_names [map Py.round2 (map (entry b) feature_names)].

(** What the submitted block adds to the page: the input frame, ... *)
Definition input_page (input_data : Pd.DataFrame) : list element :=
  [ Subheader "Model Input Features";
    Dataframe input_data ].

(** ... then the probability, the tier with its advice and the heading of
    the explanation, ... *)
Definition prediction_page (c : Classification) : list element :=
  [ Subheader "Prediction Result & Explanation";
    Markdown ("**Estimated probability:** "
                ++ Fmt.format_2f (probability c) ++ "%");
    Markdown (risk_level c ++ nl ++ nl ++ suggestion c);
    Subheader "SHAP Force Plot Explanation" ].

(** ... and the picture of the force plot. *)
Definition result_page (model_input : Pd.DataFrame) (c : Classification)
    (fig : Figure) : list element :=
  input_page model_input ++ prediction_page c ++ [Image fig].

(** The outcome of the submitted block on a frame of rounded inputs, by the
    outcome of the prediction and of the choice of the attribution. *)
Definition block_outcome (model : Model) (X_test frame : Pd.DataFrame)
    (s : State) : result unit * State :=
  match classify model X_test frame with
  | Raise e => (Raise e, mkState (page s ++ input_page frame) (files s))
  | Ok c =>
      match select_attribution (shap_values (TreeExplainer model) frame)
              (expected_value (TreeExplainer model)) with
      | Raise e =>
          (Raise e,
           mkState (page s ++ input_page frame ++ prediction_page c) (files s))
      | Ok sel =>
          let fig := mkFigure (snd sel) (fst sel) frame in
          (Ok tt,
           mkState (page s ++ result_page frame c fig)
             (mkFiles (LGB_pkl (files s)) (x_test_csv (files s)) (Some fig)))
      end
  end.

(** The reductions of the reference data the form asks for. *)
Record FormData : Type := mkFormData {
  age_min : Q;
  age_default : option Q;
  burden_min : Q;
  burden_default : option Q;
  thickness_default : option Q
}.

Definition form_data (X_test : Pd.DataFrame) : result FormData :=
  a <- int_min X_test "Age (years)" ;;
  ad <- round_median X_test "Age (years)" ;;
  u <- int_min X_test "Carotid plaque burden" ;;
  ud <- round_median X_test "Carotid plaque burden" ;;
  pd <- round_median X_test "Plaque thickness (mm)" ;;
  Ok (mkFormData (inject_Z a) ad (inject_Z u) ud pd).

(** The page up to the first widget. *)
Definition header : list element :=
  [ Title "Prediction of Cardiovascular Risk in New–onset T2D";
    Caption "Based on TyG Index and Carotid Ultrasound Features";
    Subheader "Please enter the following clinical and ultrasound features:" ].

(** A stand-in classifier: the positive-class probability is the age over
    two hundred; its explainer returns one attribution array per class. *)
Definition example_model : Model :=
  mkModel
    (fun row => (1 - nth 0 row 0 / 200, nth 0 row 0 / 200))
    (mkExplainer
       (fun _ => ShapList [Array [Array [Scalar (-1 # 10)]];
                           Array [Array [Scalar (1 # 10)]]])
       (Array [Scalar (7 # 10); Scalar (3 # 10)])).

(** A reference dataset of three rows. *)
Definition example_X_test : Pd.DataFrame :=
  Pd.mkDataFrame feature_names
    [ [40; 0; 1; 8; 2; 1];
      [60; 1; 1; 9; 3; 2];
      [70; 1; 1; 9; 4; 3] ].

(** Numbers within the bounds of the form, some with more than two
    decimals. *)
Definition example_entry (label : string) : Q :=
  if String.eqb label "Age (years)" then 65432 # 1000
  else if String.eqb label "Hypertension" then 1
  else if String.eqb label "Carotid plaque burden" then 3
  else 1 # 3.

Definition example_browser : Browser :=
  mkBrowser example_entry (fun _ => 1%nat) true.

Definition example_files : Files :=
  mkFiles (Some example_model) (Some example_X_test) None.

(** The six numbers of the concrete submission. *)
Definition example_inputs : list Q := map example_entry feature_names.

(** A cell [x] and its rounding [r] to two decimals: [r] is the float
    nearest to a whole number [n] of hundredths, [n] being the integer
    nearest to the float product of [x] and 100. *)
Definition rounds_to (x r : Q) : Prop :=
  exists n : Z,
    n = Py.rint (Py.double (x * 100)) /\ r = Py.double (inject_Z n / 100).

(** The advice that goes with a tier. *)
Definition advice (tier : string) : string :=
  if String.eqb tier LOW_RISK then
    "Please continue to maintain a healthy lifestyle and attend regular follow-up visits."
  else if String.eqb tier MODERATE_RISK then
    "It is advised to monitor your condition closely and consider preventive interventions."
  else
    "It is recommended to consult a physician promptly and take proactive medical measures.".

(** The classification of the concrete setting, computed. *)
Definition example_classification : Classification :=
  Eval vm_compute in
    match classify example_model example_X_test
            (model_input_of example_browser) with
    | Ok c => c
    | Raise _ => mkClassification (0, 0) 0 0 0 "" ""
    end.

(** A classifier whose probability has more than four decimals: the age
    plus a thousandth of the TyG index, over two hundred. *)
Definition fine_model : Model :=
  mkModel
    (fun row => let p := (nth 0 row 0 + nth 3 row 0 / 1000) / 200 in (1 - p, p))
    (TreeExplainer example_model).

(** A reference dataset of one row: both thresholds are its probability. *)
Definition fine_X_test : Pd.DataFrame :=
  Pd.mkDataFrame feature_names [ [50; 0; 1; 14; 2; 1] ].

Definition fine_entry (label : string) : Q :=
  if String.eqb label "Age (years)" then 50
  else if String.eqb label "Hypertension" then 0
  else if String.eqb label "TyG index" then 12
  else if String.eqb label "Carotid plaque burden" then 2
  else 1.

Definition fine_browser : Browser :=
  mkBrowser fine_entry (fun _ => 0%nat) true.





(** A reference dataset with the six columns and no row. *)
Definition empty_X_test : Pd.DataFrame := Pd.mkDataFrame feature_names [].

Definition empty_files : Files :=
  mkFiles (Some example_model) (Some empty_X_test) None.

(** A browser that holds 2 for every field and the third position of
    every select box. *)
Definition two_browser : Browser :=
  mkBrowser (fun _ => 2) (fun _ => 2%nat) true.


(** The bounds the form declares for its six fields, in the order of the
    features, given the minima [int(...min())] of the ages and of the plaque
    burdens. *)
Definition declared_bounds (age_minimum burden_minimum : Z) : list (Q * Q) :=
  [ (inject_Z age_minimum, 100);
    (0, 1);
    (0, 15 # 10);
    (0, 15);
    (inject_Z burden_minimum, 15);
    (0, 7) ].

Definition in_bounds (bounds : Q * Q) (x : Q) : Prop :=
  fst bounds <= x /\ x <= snd bounds.

(** The exceptions the building of a number input with integer bounds ends
    with. *)
Definition refused (e : string) : Prop :=
  In e ["KeyError"; "ValueError"; "StreamlitMixedNumericTypesError"].

(** The reductions of the concrete reference dataset, computed. *)
Definition example_form_data : FormData :=
  Eval vm_compute in
    match form_data example_X_test with
    | Ok d => d
    | Raise _ => mkFormData 0 None 0 None None
    end.

(** A classifier whose explainer returns a per-class list with a single
    entry. *)
Definition one_class_model : Model :=
  mkModel (predict_row example_model)
    (mkExplainer (fun _ => ShapList [Array [Array [Scalar (1 # 10)]]])
       (Array [Scalar (3 # 10)])).

(** Reference data without the age column. *)
Definition ageless_X_test : Pd.DataFrame :=
  Pd.mkDataFrame ["Hypertension"] [[1]].

Definition ageless_files : Files :=
  mkFiles (Some example_model) (Some ageless_X_test) None.


(** * Properties *)

(** ** Comparisons *)

Lemma Qle_bool_false (x y : Q) : Qle_bool x y = false <-> y < x.
Proof.
  split; intro H.
  - apply Qnot_le_lt. intro L. apply Qle_bool_iff in L. congruence.
  - destruct (Qle_bool x y) eqn:E; [|reflexivity].
    apply Qle_bool_iff in E. lra.
Qed.

Ltac qbool :=
  repeat match goal with
  | H : Qle_bool _ _ = true |- _ => apply Qle_bool_iff in H
  | H : Qle_bool _ _ = false |- _ => apply Qle_bool_false in H
  end.

(** ** The tier of a probability *)

Lemma tiers_distinct :
  LOW_RISK <> MODERATE_RISK /\ LOW_RISK <> HIGH_RISK /\ MODERATE_RISK <> HIGH_RISK.
Proof. repeat split; discriminate. Qed.

(** C1.  With [low_cutoff <= mid_cutoff], the tier is LOW exactly when
    [p <= low_cutoff], MODERATE exactly when [low_cutoff < p <= mid_cutoff]
    and HIGH exactly when [p > mid_cutoff]; every [p] gets one of the three
    tiers, which are pairwise different, so it gets exactly one. *)
Theorem stratify_partition (p low_cutoff mid_cutoff : Q)
    (Hcut : low_cutoff <= mid_cutoff) :
  let tier := fst (stratify p low_cutoff mid_cutoff) in
  (tier = LOW_RISK <-> p <= low_cutoff) /\
  (tier = MODERATE_RISK <-> low_cutoff < p /\ p <= mid_cutoff) /\
  (tier = HIGH_RISK <-> mid_cutoff < p) /\
  (tier = LOW_RISK \/ tier = MODERATE_RISK \/ tier = HIGH_RISK) /\
  ~ (tier = LOW_RISK /\ tier = MODERATE_RISK) /\
  ~ (tier = LOW_RISK /\ tier = HIGH_RISK) /\
  ~ (tier = MODERATE_RISK /\ tier = HIGH_RISK).
Proof.
  destruct tiers_distinct as (LM & LH & MH).
  unfold stratify.
  destruct (Qle_bool p low_cutoff) eqn:E1;
    [|destruct (Qle_bool p mid_cutoff) eqn:E2]; qbool; cbn [fst];
    unfold not; repeat split; intros; try tauto; try lra; try congruence;
    try (exfalso; intuition congruence); try (intuition lra).
Qed.

Lemma stratify_partition_witness :
  (1 # 4) <= (3 # 4) /\
  (fst (stratify (1 # 2) (1 # 4) (3 # 4)) = MODERATE_RISK
   <-> (1 # 4) < (1 # 2) /\ (1 # 2) <= (3 # 4)).
Proof.
  split; [lra|].
  apply (stratify_partition (1 # 2) (1 # 4) (3 # 4)). lra.
Defined.

(** ** Sorting *)

Lemma In_insert (x y : Q) (l : list Q) :
  In y (Np.insert x l) -> y = x \/ In y l.
Proof.
  induction l as [|z t IH]; simpl.
  - intuition.
  - destruct (Qle_bool x z); simpl; intuition.
Qed.

Lemma insert_ascending (x : Q) (l : list Q) :
  ascending l -> ascending (Np.insert x l).
Proof.
  induction 1 as [|z t Hz Ht IH]; simpl.
  - constructor; [intros y []|constructor].
  - destruct (Qle_bool x z) eqn:E; qbool.
    + constructor; [|constructor; assumption].
      intros y [<-|Hy]; [assumption|].
      apply Qle_trans with z; auto.
    + constructor; [|assumption].
      intros y Hy. apply In_insert in Hy as [->|Hy]; [lra|auto].
Qed.

Lemma sort_ascending (l : list Q) : ascending (Np.sort l).
Proof.
  induction l; simpl; [constructor|now apply insert_ascending].
Qed.

Lemma length_insert (x : Q) (l : list Q) :
  length (Np.insert x l) = S (length l).
Proof.
  induction l as [|z t IH]; simpl; [reflexivity|].
  destruct (Qle_bool x z); simpl; congruence.
Qed.

Lemma length_sort (l : list Q) : length (Np.sort l) = length l.
Proof.
  induction l; simpl; [reflexivity|].
  rewrite length_insert. congruence.
Qed.

Lemma ascending_nth (l : list Q) :
  ascending l ->
  forall i j, (i <= j)%nat -> (j < length l)%nat -> nth i l 0 <= nth j l 0.
Proof.
  induction 1 as [|x t Hx Ht IH]; intros i j Hij Hj; simpl in Hj; [lia|].
  destruct i as [|i], j as [|j]; simpl; try lia.
  - lra.
  - apply Hx, nth_In. lia.
  - apply IH; lia.
Qed.

(** ** Indexing *)

Lemma index_nonneg {A : Type} (l : list A) (d : A) (i : nat) :
  (i < length l)%nat -> Py.index l (Z.of_nat i) = Ok (nth i l d).
Proof.
  intro Hi. unfold Py.index.
  replace (Z.of_nat i <? 0)%Z with false by (symmetry; apply Z.ltb_ge; lia).
  replace (0 <=? Z.of_nat i)%Z with true by (symmetry; apply Z.leb_le; lia).
  replace (Z.of_nat i <? Z.of_nat (length l))%Z with true
    by (symmetry; apply Z.ltb_lt; lia).
  simpl. rewrite Nat2Z.id.
  destruct (nth_error l i) eqn:E.
  - now rewrite (nth_error_nth _ _ d E).
  - apply nth_error_None in E. lia.
Qed.

Lemma index_last {A : Type} (l : list A) (d : A) :
  l <> [] -> Py.index l (-1)%Z = Ok (nth (length l - 1) l d).
Proof.
  intro Hl. assert (0 < length l)%nat by (destruct l; simpl; [congruence|lia]).
  rewrite <- (index_nonneg l d) by lia.
  unfold Py.index. simpl (_ <? 0)%Z.
  replace (Z.of_nat (length l - 1)) with (Z.of_nat (length l) + -1)%Z by lia.
  destruct (Z.of_nat (length l) + -1 <? 0)%Z eqn:E; [|reflexivity].
  apply Z.ltb_lt in E. lia.
Qed.

Lemma index_empty {A : Type} (i : Z) : Py.index (@nil A) i = Raise "IndexError".
Proof.
  unfold Py.index. simpl.
  destruct (i <? 0)%Z eqn:E.
  - destruct (0 <=? i)%Z eqn:E1; [|reflexivity].
    apply Z.ltb_lt in E. apply Z.leb_le in E1. lia.
  - destruct (0 <=? i)%Z; simpl; [|reflexivity].
    destruct (i <? 0)%Z; [|reflexivity]. destruct (Z.to_nat i); reflexivity.
Qed.

(** ** The percentile as a function of the virtual index *)

Lemma lerp_linear (a b t : Q) : Np.lerp a b t == a + (b - a) * t.
Proof. unfold Np.lerp. destruct (Qle_bool (1 # 2) t); ring. Qed.

Lemma Qfloor_nonneg (v : Q) : 0 <= v -> (0 <= Qfloor v)%Z.
Proof.
  intro Hv. pose proof (Qlt_floor v) as H.
  assert (L : inject_Z 0 < inject_Z (Qfloor v + 1)) by (simpl; unfold inject_Z at 1; lra).
  rewrite <- Zlt_Qlt in L. lia.
Qed.

Lemma Qfloor_below (v : Q) (m : Z) : v < inject_Z m -> (Qfloor v < m)%Z.
Proof.
  intro Hv. pose proof (Qfloor_le v) as H.
  rewrite Zlt_Qlt. lra.
Qed.

Lemma quantile_interpolate (arr : list Q) (q : Q) :
  arr <> [] -> 0 <= q ->
  exists x, Np.quantile arr q = Ok x /\
    x == interpolate (Np.sort arr)
           (inject_Z (Z.of_nat (length arr) - 1) * q).
Proof.
  intros Harr Hq.
  assert (Hn : (0 < length arr)%nat) by (destruct arr; simpl; [congruence|lia]).
  assert (Hs : Np.sort arr <> []).
  { intro E. pose proof (length_sort arr) as L. rewrite E in L. simpl in L. lia. }
  unfold Np.quantile, interpolate. rewrite length_sort.
  set (n := Z.of_nat (length arr)).
  set (v := inject_Z (n - 1) * q).
  assert (Hv : 0 <= v).
  { apply Qmult_le_0_compat; [|assumption].
    change 0 with (inject_Z 0). rewrite <- Zle_Qle. lia. }
  unfold Np.get_indexes.
  replace (Qle_bool 0 v) with true by (symmetry; now apply Qle_bool_iff).
  destruct (Qle_bool (inject_Z (n - 1)) v) eqn:E; cbn [negb]; qbool.
  - rewrite (index_last _ 0 Hs). cbn [bind]. rewrite length_sort.
    eexists; split; [reflexivity|]. rewrite lerp_linear. ring.
  - pose proof (Qfloor_nonneg v Hv) as F0.
    pose proof (Qfloor_below v (n - 1) E) as F1.
    set (i := Z.to_nat (Qfloor v)).
    assert (I1 : Py.index (Np.sort arr) (Qfloor v) = Ok (nth i (Np.sort arr) 0)).
    { rewrite <- index_nonneg by (rewrite length_sort; lia).
      f_equal. lia. }
    assert (I2 : Py.index (Np.sort arr) (Qfloor v + 1)
                 = Ok (nth (S i) (Np.sort arr) 0)).
    { rewrite <- index_nonneg by (rewrite length_sort; lia).
      f_equal. lia. }
    rewrite I1, I2. cbn [bind].
    eexists; split; [reflexivity|]. rewrite lerp_linear. reflexivity.
Qed.

Lemma interpolate_mono (s : list Q) (v1 v2 : Q) :
  ascending s -> s <> [] -> 0 <= v1 -> v1 <= v2 ->
  interpolate s v1 <= interpolate s v2.
Proof.
  intros Hasc Hs H0 H12.
  assert (Hn : (0 < length s)%nat) by (destruct s; simpl; [congruence|lia]).
  unfold interpolate.
  set (m := inject_Z (Z.of_nat (length s) - 1)).
  assert (slot : forall v, 0 <= v -> v < m ->
            let i := Z.to_nat (Qfloor v) in
            (S i < length s)%nat /\
            inject_Z (Z.of_nat i) <= v /\ v < inject_Z (Z.of_nat i) + 1 /\
            inject_Z (Qfloor v) == inject_Z (Z.of_nat i) /\
            nth i s 0 <= nth (S i) s 0).
  { intros v Hv Hm i.
    pose proof (Qfloor_nonneg v Hv) as F0.
    pose proof (Qfloor_below v _ Hm) as F1.
    pose proof (Qfloor_le v) as F2. pose proof (Qlt_floor v) as F3.
    rewrite inject_Z_plus in F3. change (inject_Z 1) with 1 in F3.
    assert (E : Z.of_nat i = Qfloor v) by (subst i; lia).
    rewrite E.
    split; [lia|]. split; [lra|]. split; [lra|]. split; [reflexivity|].
    apply ascending_nth; [assumption|lia|lia]. }
  destruct (Qle_bool m v2) eqn:E2; qbool.
  - destruct (Qle_bool m v1) eqn:E1; qbool; [lra|].
    destruct (slot v1 H0 E1) as (L & A & B & F & C).
    set (i := Z.to_nat (Qfloor v1)) in *.
    assert (D : nth (S i) s 0 <= nth (length s - 1) s 0)
      by (apply ascending_nth; [assumption|lia|lia]).
    rewrite F. nra.
  - assert (E1 : v1 < m) by lra.
    replace (Qle_bool m v1) with false by (symmetry; now apply Qle_bool_false).
    destruct (slot v1 H0 E1) as (L1 & A1 & B1 & F1 & C1).
    destruct (slot v2 (Qle_trans _ _ _ H0 H12) E2) as (L2 & A2 & B2 & F2 & C2).
    set (i := Z.to_nat (Qfloor v1)) in *.
    set (j := Z.to_nat (Qfloor v2)) in *.
    rewrite F1, F2.
    assert (Hij : (i <= j)%nat).
    { assert (K : inject_Z (Z.of_nat i) < inject_Z (Z.of_nat j + 1))
        by (rewrite inject_Z_plus; change (inject_Z 1) with 1; lra).
      rewrite <- Zlt_Qlt in K. lia. }
    destruct (Nat.eq_dec i j) as [<-|Hne].
    + nra.
    + assert (D : nth (S i) s 0 <= nth j s 0)
        by (apply ascending_nth; [assumption|lia|lia]).
      nra.
Qed.

Lemma percentile_interpolate (a : list Q) (q : Q) :
  a <> [] -> 0 <= q -> q <= 100 ->
  exists x, Np.percentile a q = Ok x /\
    x == interpolate (Np.sort a)
           (inject_Z (Z.of_nat (length a) - 1) * (q / 100)).
Proof.
  intros Ha H0 H1. unfold Np.percentile.
  assert (L0 : 0 <= q / 100) by (apply Qle_shift_div_l; lra).
  assert (L1 : q / 100 <= 1) by (apply Qle_shift_div_r; lra).
  apply Qle_bool_iff in L1 as B1. apply Qle_bool_iff in L0 as B0.
  rewrite B0, B1. cbn [andb].
  now apply quantile_interpolate.
Qed.

(** The percentile grows with the rank. *)
Lemma percentile_mono (a : list Q) (q1 q2 x1 x2 : Q) :
  0 <= q1 -> q1 <= q2 -> q2 <= 100 ->
  Np.percentile a q1 = Ok x1 -> Np.percentile a q2 = Ok x2 -> x1 <= x2.
Proof.
  intros H0 H12 H2 E1 E2.
  destruct a as [|y t].
  - unfold Np.percentile, Np.quantile in E1.
    destruct (Qle_bool 0 (q1 / 100) && Qle_bool (q1 / 100) 1)%bool;
      [|discriminate].
    simpl in E1.
    destruct (Np.get_indexes _ _) as [i j]. rewrite index_empty in E1.
    discriminate.
  - destruct (percentile_interpolate (y :: t) q1) as (z1 & P1 & Q1);
      [discriminate|lra|lra|].
    destruct (percentile_interpolate (y :: t) q2) as (z2 & P2 & Q2);
      [discriminate|lra|lra|].
    rewrite E1 in P1. rewrite E2 in P2.
    injection P1 as <-. injection P2 as <-.
    rewrite Q1, Q2.
    set (m := inject_Z (Z.of_nat (length (y :: t)) - 1)).
    assert (Hm : 0 <= m).
    { subst m. change 0 with (inject_Z 0). rewrite <- Zle_Qle.
      simpl length. lia. }
    apply interpolate_mono.
    + apply sort_ascending.
    + intro E. pose proof (length_sort (y :: t)) as L.
      rewrite E in L. simpl in L. lia.
    + apply Qmult_le_0_compat; [assumption|]. apply Qle_shift_div_l; lra.
    + assert (D : q1 / 100 <= q2 / 100).
      { apply Qmult_le_compat_r; [assumption|].
        apply Qlt_le_weak, Qinv_lt_0_compat. lra. }
      nra.
Qed.

(** ** What [classify] computes *)

Lemma classify_inv (model : Model) (X_test model_input : Pd.DataFrame)
    (c : Classification) :
  classify model X_test model_input = Ok c ->
  Py.index (predict_proba model model_input) 0%Z = Ok (predicted_proba c) /\
  probability c = Py.double (snd (predicted_proba c) * 100) /\
  Np.percentile (map snd (predict_proba model X_test)) (5394 # 100)
    = Ok (low_threshold c) /\
  Np.percentile (map snd (predict_proba model X_test)) (899 # 10)
    = Ok (mid_threshold c) /\
  (risk_level c, suggestion c)
    = stratify (snd (predicted_proba c)) (low_threshold c) (mid_threshold c).
Proof.
  unfold classify. intros H.
  set (y_probs := map snd (predict_proba model X_test)) in *.
  destruct (Py.index (predict_proba model model_input) 0%Z) as [pp|e];
    [|discriminate].
  cbn [bind] in H.
  destruct (Np.percentile y_probs (5394 # 100)) as [lo|e]; [|discriminate].
  cbn [bind] in H.
  destruct (Np.percentile y_probs (899 # 10)) as [mi|e]; [|discriminate].
  cbn [bind] in H.
  destruct (stratify (snd pp) lo mi) as [r s] eqn:E.
  injection H as <-. cbn. rewrite E. repeat split; reflexivity.
Qed.

Lemma classify_total (model : Model) (X_test model_input : Pd.DataFrame) :
  Pd.rows X_test <> [] -> Pd.rows model_input <> [] ->
  exists c, classify model X_test model_input = Ok c.
Proof.
  intros HX Hin. unfold classify, predict_proba.
  destruct (Pd.rows model_input) as [|r rs]; [congruence|].
  cbn [map]. unfold Py.index at 1. cbn -[Np.percentile stratify Qmult].
  set (y_probs := map snd (map (predict_row model) (Pd.rows X_test))).
  assert (Hy : y_probs <> []).
  { subst y_probs. destruct (Pd.rows X_test); [congruence|discriminate]. }
  destruct (percentile_interpolate y_probs (5394 # 100) Hy) as (lo & -> & _);
    [lra|lra|].
  destruct (percentile_interpolate y_probs (899 # 10) Hy) as (mi & -> & _);
    [lra|lra|].
  cbn [bind].
  destruct (stratify _ lo mi). eexists. reflexivity.
Qed.

(** C2.  For every model and every reference dataset with at least one row
    (and a one-row model input), [classify] computes its two thresholds and
    they satisfy [low_threshold <= mid_threshold]: the 53.94th percentile of
    the reference probabilities is at most their 89.9th percentile. *)
Theorem thresholds_ordered (model : Model) (X_test model_input : Pd.DataFrame)
    (HX : Pd.rows X_test <> []) (Hin : Pd.rows model_input <> []) :
  exists c, classify model X_test model_input = Ok c /\
            low_threshold c <= mid_threshold c.
Proof.
  destruct (classify_total model X_test model_input HX Hin) as (c & Hc).
  exists c. split; [assumption|].
  destruct (classify_inv _ _ _ _ Hc) as (_ & _ & Plo & Pmi & _).
  apply (percentile_mono _ (5394 # 100) (899 # 10) _ _) with (4 := Plo) (5 := Pmi);
    lra.
Qed.

(** ** The cells of the rounded input frame *)

Lemma prepare_model_input_round (a h i t u p : Q) :
  prepare_model_input (Pd.round (Pd.mkDataFrame feature_names [[a; h; i; t; u; p]]))
  = Ok (Pd.mkDataFrame feature_names [map Py.round2 [a; h; i; t; u; p]]).
Proof. reflexivity. Qed.

(** ** Floats: powers of two, the nearest integer, the nearest float *)
Lemma pow2_pos (e : Z) : 0 < 2 ^ e.
Proof. apply Qpower_0_lt. reflexivity. Qed.

Lemma pow2_inject (a : Z) : (0 <= a)%Z -> inject_Z (2 ^ a) == 2 ^ a.
Proof. intro H. exact (Zpower_Qpower 2 a H). Qed.

Lemma pow2_succ (e : Z) : 2 ^ (e + 1) == 2 * 2 ^ e.
Proof. rewrite Qpower_plus by discriminate. change (2 ^ 1) with 2. ring. Qed.

Lemma pow2_le (a b : Z) : (a <= b)%Z -> 2 ^ a <= 2 ^ b.
Proof. intro H. apply Qpower_le_compat_l; [exact H|discriminate]. Qed.

Lemma pow2_lt_inv (a b : Z) : 2 ^ a < 2 ^ b -> (a < b)%Z.
Proof. intro H. apply (Qpower_lt_compat_l_inv 2); [exact H|reflexivity]. Qed.

Lemma ilog2_spec (x : Q) :
  0 < x -> 2 ^ Py.ilog2 x <= x /\ x < 2 ^ (Py.ilog2 x + 1).
Proof.
  intro Hx. unfold Py.ilog2.
  destruct (Qle_bool 1 x) eqn:E.
  - apply Qle_bool_iff in E.
    pose proof (Qfloor_le x) as L. pose proof (Qlt_floor x) as U.
    assert (F : (1 <= Qfloor x)%Z).
    { rewrite <- (Qfloor_Z 1). now apply Qfloor_resp_le. }
    destruct (Z.log2_spec (Qfloor x) ltac:(lia)) as [A B].
    pose proof (Z.log2_nonneg (Qfloor x)) as N.
    rewrite <- !pow2_inject by lia. split.
    + apply Qle_trans with (inject_Z (Qfloor x)); [|exact L].
      now rewrite <- Zle_Qle.
    + apply Qlt_le_trans with (inject_Z (Qfloor x + 1)); [exact U|].
      rewrite <- Zle_Qle. unfold Z.succ in B. lia.
  - apply Qle_bool_false in E.
    assert (I : 1 < / x).
    { apply Qlt_shift_inv_l; [exact Hx|lra]. }
    pose proof (Qle_ceiling (/ x)) as U. pose proof (Qceiling_lt (/ x)) as L.
    set (c := Qceiling (/ x)) in *.
    assert (C : (1 < c)%Z).
    { rewrite Zlt_Qlt. change (inject_Z 1) with 1. lra. }
    destruct (Z.log2_up_spec c C) as [A B].
    pose proof (Z.log2_up_pos c C) as P.
    set (l := Z.log2_up c) in *.
    assert (X : x * / x == 1) by (field; lra).
    split.
    + rewrite Qpower_opp, <- pow2_inject by lia.
      assert (K : / x <= inject_Z (2 ^ l)).
      { apply Qle_trans with (inject_Z c); [exact U|]. now rewrite <- Zle_Qle. }
      assert (Pp : 0 < inject_Z (2 ^ l)) by lra.
      apply Qle_shift_inv_r; [exact Pp|].
      set (ix := / x) in *.
      assert (M : 0 <= x * (inject_Z (2 ^ l) - ix))
        by (apply Qmult_le_0_compat; lra).
      lra.
    + replace (- l + 1)%Z with (- (l - 1))%Z by lia.
      rewrite Qpower_opp.
      assert (L1 : (0 <= l - 1)%Z) by lia.
      rewrite <- (pow2_inject (l - 1) L1).
      assert (K : inject_Z (2 ^ (l - 1)) < / x).
      { apply Qle_lt_trans with (inject_Z (c - 1)); [|exact L].
        rewrite <- Zle_Qle. rewrite <- Z.sub_1_r in A. lia. }
      assert (Pp : 0 < inject_Z (2 ^ (l - 1))).
      { change 0 with (inject_Z 0). rewrite <- Zlt_Qlt.
        apply Z.pow_pos_nonneg; lia. }
      apply Qlt_shift_inv_l; [exact Pp|].
      set (ix := / x) in *.
      assert (M : 0 < x * (ix - inject_Z (2 ^ (l - 1))))
        by (apply Qmult_lt_0_compat; lra).
      lra.
Qed.

Lemma ilog2_le (x : Q) (j : Z) : 0 < x -> x < 2 ^ (j + 1) -> (Py.ilog2 x <= j)%Z.
Proof.
  intros Hx H. destruct (ilog2_spec x Hx) as [A _].
  assert (K : 2 ^ Py.ilog2 x < 2 ^ (j + 1)) by lra.
  apply pow2_lt_inv in K. lia.
Qed.

Lemma ilog2_ge (x : Q) (j : Z) : 2 ^ j <= x -> (j <= Py.ilog2 x)%Z.
Proof.
  intro H. pose proof (pow2_pos j) as P.
  destruct (ilog2_spec x ltac:(lra)) as [_ B].
  assert (K : 2 ^ j < 2 ^ (Py.ilog2 x + 1)) by lra.
  apply pow2_lt_inv in K. lia.
Qed.

Lemma ilog2_mono (x y : Q) : 0 < x -> x <= y -> (Py.ilog2 x <= Py.ilog2 y)%Z.
Proof.
  intros Hx H. destruct (ilog2_spec x Hx) as [A _].
  apply ilog2_ge. lra.
Qed.

Lemma rint_comp (x y : Q) : x == y -> Py.rint x = Py.rint y.
Proof.
  intro E. unfold Py.rint. rewrite (Qfloor_comp _ _ E).
  assert (C : Qcompare (x - inject_Z (Qfloor y)) (1 # 2)
              = Qcompare (y - inject_Z (Qfloor y)) (1 # 2))
    by (apply Qcompare_comp; [rewrite E|]; reflexivity).
  now rewrite C.
Qed.

Lemma rint_inject_Z (k : Z) : Py.rint (inject_Z k) = k.
Proof.
  unfold Py.rint. rewrite Qfloor_Z.
  assert (C : Qcompare (inject_Z k - inject_Z k) (1 # 2) = Lt).
  { rewrite <- Qlt_alt.
    assert (E : inject_Z k - inject_Z k == 0) by ring.
    rewrite E. reflexivity. }
  now rewrite C.
Qed.

Lemma rint_nearest (y : Q) :
  - (1 # 2) <= inject_Z (Py.rint y) - y /\ inject_Z (Py.rint y) - y <= 1 # 2.
Proof.
  unfold Py.rint.
  pose proof (Qfloor_le y) as L. pose proof (Qlt_floor y) as U.
  rewrite inject_Z_plus in U. change (inject_Z 1) with 1 in U.
  destruct (Qcompare (y - inject_Z (Qfloor y)) (1 # 2)) eqn:E.
  - apply Qeq_alt in E.
    destruct (Z.even (Qfloor y));
      [|rewrite inject_Z_plus; change (inject_Z 1) with 1]; lra.
  - apply Qlt_alt in E. lra.
  - apply Qgt_alt in E. rewrite inject_Z_plus. change (inject_Z 1) with 1. lra.
Qed.

Lemma rint_le_integer (y : Q) (j : Z) :
  y <= inject_Z j -> (Py.rint y <= j)%Z.
Proof.
  intro H. unfold Py.rint.
  pose proof (Qfloor_le y) as L. pose proof (Qlt_floor y) as U.
  rewrite inject_Z_plus in U. change (inject_Z 1) with 1 in U.
  assert (F : (Qfloor y <= j)%Z) by (rewrite Zle_Qle; lra).
  destruct (Z.eq_dec (Qfloor y) j) as [E|N].
  - assert (C : Qcompare (y - inject_Z (Qfloor y)) (1 # 2) = Lt).
    { rewrite <- Qlt_alt. rewrite E in *. lra. }
    rewrite C. lia.
  - destruct (Qcompare _ _); [destruct (Z.even _)| |]; lia.
Qed.

Lemma rint_ge_integer (y : Q) (j : Z) :
  inject_Z j <= y -> (j <= Py.rint y)%Z.
Proof.
  intro H. unfold Py.rint.
  assert (F : (j <= Qfloor y)%Z)
    by (rewrite <- (Qfloor_Z j); now apply Qfloor_resp_le).
  destruct (Qcompare _ _); [destruct (Z.even _)| |]; lia.
Qed.

Lemma rint_mono (x y : Q) : x <= y -> (Py.rint x <= Py.rint y)%Z.
Proof.
  intro H.
  pose proof (Qfloor_resp_le _ _ H) as F.
  destruct (Z.eq_dec (Qfloor x) (Qfloor y)) as [E|N].
  - unfold Py.rint. rewrite E.
    destruct (Qcompare (x - inject_Z (Qfloor y)) (1 # 2)) eqn:Cx;
      destruct (Qcompare (y - inject_Z (Qfloor y)) (1 # 2)) eqn:Cy;
      try (destruct (Z.even (Qfloor y))); try lia;
      repeat match goal with
             | K : (_ ?= _) = Eq |- _ => apply Qeq_alt in K
             | K : (_ ?= _) = Lt |- _ => apply Qlt_alt in K
             | K : (_ ?= _) = Gt |- _ => apply Qgt_alt in K
             end;
      exfalso; lra.
  - apply Z.le_trans with (Qfloor x + 1)%Z.
    + unfold Py.rint. destruct (Qcompare _ _); [destruct (Z.even _)| |]; lia.
    + apply Z.le_trans with (Qfloor y); [lia|].
      apply rint_ge_integer, Qfloor_le.
Qed.

Lemma ilog2_comp (x y : Q) : x == y -> Py.ilog2 x = Py.ilog2 y.
Proof.
  intro E. unfold Py.ilog2.
  assert (B : Qle_bool 1 x = Qle_bool 1 y).
  { destruct (Qle_bool 1 x) eqn:A, (Qle_bool 1 y) eqn:A'; try reflexivity;
      [apply Qle_bool_iff in A; apply Qle_bool_false in A'
      |apply Qle_bool_iff in A'; apply Qle_bool_false in A]; lra. }
  rewrite B, (Qfloor_comp _ _ E).
  assert (I : / x == / y) by now rewrite E.
  now rewrite (Qceiling_comp _ _ I).
Qed.

Lemma ulp_exponent_comp (x y : Q) : x == y -> Py.ulp_exponent x = Py.ulp_exponent y.
Proof.
  intro E. unfold Py.ulp_exponent.
  assert (A : Qabs x == Qabs y) by now rewrite E.
  now rewrite (ilog2_comp _ _ A).
Qed.

Lemma double_comp (x y : Q) : x == y -> Py.double x == Py.double y.
Proof.
  intro E. unfold Py.double.
  assert (B : Qeq_bool x 0 = Qeq_bool y 0).
  { destruct (Qeq_bool x 0) eqn:A, (Qeq_bool y 0) eqn:A'; try reflexivity;
      [apply Qeq_bool_iff in A; apply Qeq_bool_neq in A'
      |apply Qeq_bool_iff in A'; apply Qeq_bool_neq in A];
      exfalso; [apply A'|apply A]; lra. }
  rewrite B. destruct (Qeq_bool y 0); [reflexivity|]. cbv zeta.
  rewrite (ulp_exponent_comp _ _ E).
  assert (D : x / 2 ^ Py.ulp_exponent y == y / 2 ^ Py.ulp_exponent y) by now rewrite E.
  now rewrite (rint_comp _ _ D).
Qed.

Lemma double_nonzero (x : Q) :
  ~ x == 0 ->
  Py.double x = inject_Z (Py.rint (x / 2 ^ Py.ulp_exponent x)) * 2 ^ Py.ulp_exponent x.
Proof.
  intro H. unfold Py.double.
  destruct (Qeq_bool x 0) eqn:E; [|reflexivity].
  apply Qeq_bool_iff in E. contradiction.
Qed.

Lemma double_zero (x : Q) : x == 0 -> Py.double x = 0.
Proof.
  intro H. unfold Py.double. apply Qeq_bool_iff in H. now rewrite H.
Qed.

Lemma double_nonneg (x : Q) : 0 <= x -> 0 <= Py.double x.
Proof.
  intro H. unfold Py.double. destruct (Qeq_bool x 0); [lra|]. cbv zeta.
  pose proof (pow2_pos (Py.ulp_exponent x)) as P.
  apply Qmult_le_0_compat; [|lra].
  change 0 with (inject_Z 0). rewrite <- Zle_Qle.
  apply rint_ge_integer. change (inject_Z 0) with 0.
  apply Qle_shift_div_l; lra.
Qed.

Lemma pow2_add (a b : Z) : 2 ^ (a + b) == 2 ^ a * 2 ^ b.
Proof. apply Qpower_plus. discriminate. Qed.

(** Rounding to the nearest Py.double keeps the order of non-negative values. *)
Lemma double_mono (x y : Q) : 0 <= x -> x <= y -> Py.double x <= Py.double y.
Proof.
  intros Hx Hxy.
  destruct (Qeq_dec x 0) as [Z0|N0].
  - rewrite (double_zero x Z0). apply double_nonneg. lra.
  - assert (Px : 0 < x) by (destruct (Qlt_le_dec 0 x); [assumption|exfalso; apply N0; lra]).
    assert (Ny : ~ y == 0) by lra.
    rewrite (double_nonzero x N0), (double_nonzero y Ny).
    assert (Ax : Qabs x == x) by (apply Qabs_pos; lra).
    assert (Ay : Qabs y == y) by (apply Qabs_pos; lra).
    assert (Lx : Py.ilog2 (Qabs x) = Py.ilog2 x) by now apply ilog2_comp.
    assert (Ly : Py.ilog2 (Qabs y) = Py.ilog2 y) by now apply ilog2_comp.
    pose proof (ilog2_mono x y Px Hxy) as M.
    destruct (ilog2_spec x Px) as [_ Ux].
    destruct (ilog2_spec y ltac:(lra)) as [Ly' _].
    unfold Py.ulp_exponent. rewrite Lx, Ly.
    set (ex := Z.max (Py.ilog2 x - 52) (-1074)).
    set (ey := Z.max (Py.ilog2 y - 52) (-1074)).
    pose proof (pow2_pos ex) as Pex. pose proof (pow2_pos ey) as Pey.
    destruct (Z.eq_dec ex ey) as [E|N].
    + rewrite E in *.
      apply Qmult_le_compat_r; [|lra].
      rewrite <- Zle_Qle. apply rint_mono.
      apply Qmult_le_compat_r; [exact Hxy|].
      apply Qlt_le_weak, Qinv_lt_0_compat. exact Pey.
    + assert (Lt : (ex + 1 <= ey)%Z) by lia.
      assert (Ey : ey = (Py.ilog2 y - 52)%Z) by lia.
      apply Qle_trans with (2 ^ (ex + 53)).
      * assert (R : (Py.rint (x / 2 ^ ex) <= 2 ^ 53)%Z).
        { apply rint_le_integer. rewrite pow2_inject by lia.
          apply Qle_shift_div_r; [exact Pex|].
          rewrite <- pow2_add.
          apply Qle_trans with (2 ^ (Py.ilog2 x + 1)); [lra|].
          apply pow2_le. lia. }
        rewrite Zle_Qle, pow2_inject in R by lia.
        rewrite (Z.add_comm ex 53), pow2_add.
        apply Qmult_le_compat_r; lra.
      * assert (R : (2 ^ 52 <= Py.rint (y / 2 ^ ey))%Z).
        { apply rint_ge_integer. rewrite pow2_inject by lia.
          apply Qle_shift_div_l; [exact Pey|].
          rewrite <- pow2_add.
          replace (52 + ey)%Z with (Py.ilog2 y) by lia. exact Ly'. }
        rewrite Zle_Qle, pow2_inject in R by lia.
        apply Qle_trans with (2 ^ 52 * 2 ^ ey).
        -- rewrite <- pow2_add. apply pow2_le. lia.
        -- apply Qmult_le_compat_r; lra.
Qed.

(** A dyadic number with a significand of at most 53 bits is a Py.double. *)
Lemma double_dyadic (x : Q) (m q : Z) :
  x == inject_Z m * 2 ^ q -> (Z.abs m < 2 ^ 53)%Z -> (-1074 <= q)%Z ->
  Py.double x == x.
Proof.
  intros Hx Hm Hq.
  destruct (Qeq_dec x 0) as [Z0|N0].
  - rewrite (double_zero x Z0). now rewrite Z0.
  - rewrite (double_nonzero x N0).
    pose proof (pow2_pos q) as Pq.
    assert (Ax : Qabs x == inject_Z (Z.abs m) * 2 ^ q).
    { rewrite Hx, Qabs_Qmult, (Qabs_pos (2 ^ q)) by lra.
      reflexivity. }
    assert (Pa : 0 < Qabs x).
    { pose proof (Qabs_nonneg x) as A.
      destruct (Qeq_dec (Qabs x) 0) as [K|K]; [|lra].
      exfalso. apply N0.
      destruct (Qabs_Qle_condition x 0) as [C _].
      destruct C as [C1 C2]; [lra|]. lra. }
    assert (L : (Py.ilog2 (Qabs x) <= 52 + q)%Z).
    { apply ilog2_le; [exact Pa|].
      replace (52 + q + 1)%Z with (53 + q)%Z by lia.
      rewrite Ax, pow2_add, <- (pow2_inject 53) by lia.
      apply Qmult_lt_compat_r; [exact Pq|].
      now rewrite <- Zlt_Qlt. }
    unfold Py.ulp_exponent.
    set (e := Z.max (Py.ilog2 (Qabs x) - 52) (-1074)).
    assert (Le : (e <= q)%Z) by lia.
    pose proof (pow2_pos e) as Pe.
    assert (D : x / 2 ^ e == inject_Z (m * 2 ^ (q - e))).
    { rewrite inject_Z_mult, pow2_inject by lia.
      rewrite Hx. unfold Zminus. rewrite pow2_add, Qpower_opp.
      field. lra. }
    rewrite (rint_comp _ _ D), rint_inject_Z.
    rewrite inject_Z_mult, pow2_inject by lia.
    rewrite Hx. unfold Zminus. rewrite pow2_add, Qpower_opp.
    field. lra.
Qed.

Lemma double_integer (k : Z) :
  (Z.abs k < 2 ^ 53)%Z -> Py.double (inject_Z k) == inject_Z k.
Proof.
  intro H. apply (double_dyadic _ k 0); [|exact H|lia].
  change (2 ^ 0) with 1. ring.
Qed.

(** The nearest Py.double is within half a unit in the last place. *)
Lemma double_close (x : Q) (j : Z) :
  Qabs x <= 2 ^ j -> (-1022 <= j)%Z -> Qabs (Py.double x - x) <= 2 ^ (j - 53).
Proof.
  intros Hx Hj.
  destruct (Qeq_dec x 0) as [Z0|N0].
  - rewrite (double_zero x Z0).
    assert (E : 0 - x == 0) by lra. rewrite E.
    apply Qlt_le_weak, pow2_pos.
  - rewrite (double_nonzero x N0).
    assert (Pa : 0 < Qabs x).
    { pose proof (Qabs_nonneg x) as A.
      destruct (Qeq_dec (Qabs x) 0) as [K|K]; [|lra].
      exfalso. apply N0.
      destruct (Qabs_Qle_condition x 0) as [C _].
      destruct C as [C1 C2]; [lra|]. lra. }
    assert (L : (Py.ilog2 (Qabs x) <= j)%Z).
    { apply ilog2_le; [exact Pa|].
      apply Qle_lt_trans with (2 ^ j); [exact Hx|].
      rewrite pow2_succ. pose proof (pow2_pos j). lra. }
    unfold Py.ulp_exponent.
    set (e := Z.max (Py.ilog2 (Qabs x) - 52) (-1074)).
    assert (Le : (e <= j - 52)%Z) by lia.
    pose proof (pow2_pos e) as Pe.
    destruct (rint_nearest (x / 2 ^ e)) as [A B].
    set (r := inject_Z (Py.rint (x / 2 ^ e))) in *.
    assert (D : r * 2 ^ e - x == (r - x / 2 ^ e) * 2 ^ e) by (field; lra).
    rewrite D.
    assert (H2 : 2 ^ e <= 2 * 2 ^ (j - 53)).
    { rewrite <- pow2_succ. apply pow2_le. lia. }
    apply Qabs_Qle_condition. split; nra.
Qed.

(** The nearest integer is characterised by its distance: less than a half,
    or a half with an even result. *)
Lemma rint_spec (y : Q) :
  Qabs (inject_Z (Py.rint y) - y) < 1 # 2 \/
  (Qabs (inject_Z (Py.rint y) - y) == 1 # 2 /\ Z.even (Py.rint y) = true).
Proof.
  unfold Py.rint.
  pose proof (Qfloor_le y) as L. pose proof (Qlt_floor y) as U.
  rewrite inject_Z_plus in U. change (inject_Z 1) with 1 in U.
  destruct (Qcompare (y - inject_Z (Qfloor y)) (1 # 2)) eqn:E.
  - apply Qeq_alt in E. right.
    destruct (Z.even (Qfloor y)) eqn:Ev.
    + split; [|exact Ev].
      rewrite Qabs_neg by lra. lra.
    + split.
      * rewrite inject_Z_plus. change (inject_Z 1) with 1.
        rewrite Qabs_pos by lra. lra.
      * rewrite Z.even_add. rewrite Ev. reflexivity.
  - apply Qlt_alt in E. left.
    apply Qabs_case; intro; lra.
  - apply Qgt_alt in E. left.
    rewrite inject_Z_plus. change (inject_Z 1) with 1.
    apply Qabs_case; intro; lra.
Qed.

Lemma rint_unique (y : Q) (n : Z) :
  Qabs (inject_Z n - y) < 1 # 2 \/
  (Qabs (inject_Z n - y) == 1 # 2 /\ Z.even n = true) ->
  Py.rint y = n.
Proof.
  intro Hn. pose proof (rint_spec y) as Hm.
  set (m := Py.rint y) in *.
  assert (Dn : Qabs (inject_Z n - y) <= 1 # 2) by (destruct Hn as [H|[H _]]; lra).
  assert (Dm : Qabs (inject_Z m - y) <= 1 # 2) by (destruct Hm as [H|[H _]]; lra).
  apply Qabs_Qle_condition in Dn as [Dn1 Dn2].
  apply Qabs_Qle_condition in Dm as [Dm1 Dm2].
  assert (B1 : inject_Z (m - 1) <= inject_Z n).
  { unfold Zminus. rewrite inject_Z_plus, inject_Z_opp.
    change (inject_Z 1) with 1. lra. }
  assert (B2 : inject_Z n <= inject_Z (m + 1)).
  { rewrite inject_Z_plus. change (inject_Z 1) with 1. lra. }
  rewrite <- Zle_Qle in B1, B2.
  destruct (Z.eq_dec n m) as [E|N]; [now symmetry|exfalso].
  assert (C : n = (m - 1)%Z \/ n = (m + 1)%Z) by lia.
  assert (Sn : ~ Qabs (inject_Z n - y) < 1 # 2 \/ ~ Qabs (inject_Z m - y) < 1 # 2).
  { destruct (Qlt_le_dec (Qabs (inject_Z n - y)) (1 # 2)) as [A|A]; [|left; lra].
    right. intro B.
    apply Qabs_Qlt_condition in A as [A1 A2].
    apply Qabs_Qlt_condition in B as [B1' B2'].
    destruct C as [-> | ->].
    - unfold Zminus in *. rewrite inject_Z_plus, inject_Z_opp in *.
      change (inject_Z 1) with 1 in *. lra.
    - rewrite inject_Z_plus in *. change (inject_Z 1) with 1 in *. lra. }
  assert (En : Z.even n = true /\ Z.even m = true).
  { destruct Hn as [Hn|[Hn En]], Hm as [Hm|[Hm Em]].
    - destruct Sn; contradiction.
    - exfalso.
      apply Qabs_Qlt_condition in Hn as [A1 A2].
      assert (K : Qabs (inject_Z m - y) <= 1 # 2) by lra.
      destruct C as [-> | ->].
      + unfold Zminus in *. rewrite inject_Z_plus, inject_Z_opp in *.
        change (inject_Z 1) with 1 in *.
        revert Hm. apply Qabs_case; intros; lra.
      + rewrite inject_Z_plus in *. change (inject_Z 1) with 1 in *.
        revert Hm. apply Qabs_case; intros; lra.
    - exfalso.
      apply Qabs_Qlt_condition in Hm as [A1 A2].
      destruct C as [-> | ->].
      + unfold Zminus in *. rewrite inject_Z_plus, inject_Z_opp in *.
        change (inject_Z 1) with 1 in *.
        revert Hn. apply Qabs_case; intros; lra.
      + rewrite inject_Z_plus in *. change (inject_Z 1) with 1 in *.
        revert Hn. apply Qabs_case; intros; lra.
    - now split. }
  destruct En as [En Em].
  destruct C as [-> | ->].
  - rewrite Z.even_sub, Em in En. discriminate.
  - rewrite Z.even_add, Em in En. discriminate.
Qed.

Lemma rint_opp (y : Q) : Py.rint (- y) = (- Py.rint y)%Z.
Proof.
  apply rint_unique.
  assert (E : inject_Z (- Py.rint y) - - y == - (inject_Z (Py.rint y) - y)).
  { rewrite inject_Z_opp. ring. }
  rewrite E, Qabs_opp, Z.even_opp.
  apply rint_spec.
Qed.

Lemma double_opp (x : Q) : Py.double (- x) == - Py.double x.
Proof.
  destruct (Qeq_dec x 0) as [Z0|N0].
  - assert (Z1 : - x == 0) by lra.
    rewrite (double_zero _ Z0), (double_zero _ Z1). reflexivity.
  - assert (N1 : ~ - x == 0) by lra.
    rewrite (double_nonzero _ N0), (double_nonzero _ N1).
    assert (Ee : Py.ulp_exponent (- x) = Py.ulp_exponent x).
    { unfold Py.ulp_exponent. now rewrite (ilog2_comp _ _ (Qabs_opp x)). }
    rewrite Ee.
    pose proof (pow2_pos (Py.ulp_exponent x)) as P.
    assert (D : - x / 2 ^ Py.ulp_exponent x == - (x / 2 ^ Py.ulp_exponent x))
      by (field; lra).
    rewrite (rint_comp _ _ D), rint_opp, inject_Z_opp. ring.
Qed.

(** Rounding to the nearest double keeps the order. *)
Lemma double_monotone (x y : Q) : x <= y -> Py.double x <= Py.double y.
Proof.
  intro H.
  destruct (Qlt_le_dec x 0) as [Nx|Px]; [|now apply double_mono].
  assert (Dx : Py.double x <= 0).
  { assert (E : x == - - x) by ring.
    rewrite (double_comp _ _ E), double_opp.
    pose proof (double_nonneg (- x) ltac:(lra)). lra. }
  destruct (Qlt_le_dec y 0) as [Ny|Py'].
  - assert (Ex : x == - - x) by ring. assert (Ey : y == - - y) by ring.
    rewrite (double_comp _ _ Ex), (double_comp _ _ Ey).
    rewrite (double_opp (- x)), (double_opp (- y)).
    pose proof (double_mono (- y) (- x) ltac:(lra) ltac:(lra)). lra.
  - pose proof (double_nonneg y Py'). lra.
Qed.

Lemma double_lt_inv (x y : Q) : Py.double x < Py.double y -> x < y.
Proof.
  intro H. destruct (Qlt_le_dec x y) as [L|L]; [exact L|].
  pose proof (double_monotone _ _ L). lra.
Qed.

(** ** Rounding to two decimals *)

Lemma round2_rounds_to (x : Q) : rounds_to x (Py.round2 x).
Proof. eexists. split; reflexivity. Qed.

Lemma round2_comp (x y : Q) : x == y -> Py.round2 x == Py.round2 y.
Proof.
  intro E. unfold Py.round2. apply double_comp.
  assert (D : x * 100 == y * 100) by now rewrite E.
  now rewrite (rint_comp _ _ (double_comp _ _ D)).
Qed.

(** Rounding keeps the order of the cells. *)
Lemma round2_mono (x y : Q) : x <= y -> Py.round2 x <= Py.round2 y.
Proof.
  intros Hxy. unfold Py.round2.
  assert (D : Py.double (x * 100) <= Py.double (y * 100))
    by (apply double_monotone; lra).
  pose proof (rint_mono _ _ D) as R.
  rewrite Zle_Qle in R.
  apply double_monotone.
  apply Qmult_le_compat_r; [exact R|].
  apply Qlt_le_weak, Qinv_lt_0_compat. lra.
Qed.

(** A float that is a whole number of hundredths is left as it is. *)
Lemma round2_fixed (h : Q) (n : Z) :
  h * 100 == inject_Z n -> (Z.abs n < 2 ^ 53)%Z -> Py.double h == h ->
  Py.round2 h == h.
Proof.
  intros Hn Hb Hh. unfold Py.round2.
  assert (D : Py.double (h * 100) == inject_Z n).
  { rewrite (double_comp _ _ Hn). now apply double_integer. }
  rewrite (rint_comp _ _ D), rint_inject_Z.
  assert (E : inject_Z n / 100 == h) by (rewrite <- Hn; field).
  now rewrite (double_comp _ _ E).
Qed.

Lemma round2_integer (k : Z) :
  (Z.abs k <= 2 ^ 46)%Z -> Py.round2 (inject_Z k) == inject_Z k.
Proof.
  intro H. apply (round2_fixed _ (k * 100)).
  - rewrite inject_Z_mult. reflexivity.
  - change (2 ^ 46)%Z with 70368744177664%Z in H.
    change (2 ^ 53)%Z with 9007199254740992%Z. lia.
  - apply double_integer.
    change (2 ^ 46)%Z with 70368744177664%Z in H.
    change (2 ^ 53)%Z with 9007199254740992%Z. lia.
Qed.

(** Bounds that rounding leaves as they are survive the rounding of what
    lies between them. *)
Lemma round2_between (x lo hi : Q) :
  Py.round2 lo == lo -> Py.round2 hi == hi ->
  lo <= x /\ x <= hi -> lo <= Py.round2 x /\ Py.round2 x <= hi.
Proof.
  intros Flo Fhi [L U]. split.
  - rewrite <- Flo. now apply round2_mono.
  - rewrite <- Fhi. now apply round2_mono.
Qed.

Lemma round2_ge_integer (x : Q) (k : Z) :
  (Z.abs k <= 2 ^ 46)%Z -> inject_Z k <= x -> inject_Z k <= Py.round2 x.
Proof.
  intros Hk H.
  rewrite <- (round2_integer k) by exact Hk.
  now apply round2_mono.
Qed.

(** A rounded cell is within half a hundredth of the cell, up to the error
    of the two float operations. *)
Lemma round2_close (x : Q) :
  Qabs x <= 1000 ->
  Qabs (Py.round2 x - x) <= (1 # 200) + (1 # 1000000000000).
Proof.
  intro Hx. unfold Py.round2.
  apply Qabs_Qle_condition in Hx as [Hx1 Hx2].
  assert (Hy : Qabs (x * 100) <= 2 ^ 17).
  { apply Qabs_Qle_condition. change (2 ^ 17) with 131072. split; lra. }
  pose proof (double_close _ 17 Hy ltac:(lia)) as D1.
  change (2 ^ (17 - 53)) with (1 # 68719476736) in D1.
  apply Qabs_Qle_condition in D1 as [D1a D1b].
  set (d1 := Py.double (x * 100)) in *.
  destruct (rint_nearest d1) as [R1 R2].
  set (n := inject_Z (Py.rint d1)) in *.
  assert (Hz : Qabs (n / 100) <= 2 ^ 10).
  { apply Qabs_Qle_condition. change (2 ^ 10) with 1024. split.
    - apply Qle_shift_div_l; lra.
    - apply Qle_shift_div_r; lra. }
  pose proof (double_close _ 10 Hz ltac:(lia)) as D2.
  change (2 ^ (10 - 53)) with (1 # 8796093022208) in D2.
  apply Qabs_Qle_condition in D2 as [D2a D2b].
  set (d2 := Py.double (n / 100)) in *.
  assert (E : n / 100 == n * (1 # 100)) by field.
  rewrite E in D2a, D2b.
  apply Qabs_Qle_condition. split; lra.
Qed.

(** ** The submitted block *)

Lemma submitted_block_outcome (model : Model) (X_test : Pd.DataFrame)
    (inputs : list Q) (s : State) :
  length inputs = 6%nat ->
  submitted_block model X_test inputs s
  = block_outcome model X_test
      (Pd.mkDataFrame feature_names [map Py.round2 inputs]) s.
Proof.
  intro Hlen.
  do 6 (destruct inputs as [|? inputs]; [discriminate|]).
  destruct inputs; [|discriminate].
  unfold submitted_block, block_outcome.
  cbn -[classify select_attribution Py.round2 Fmt.format_2f
        prepare_model_input Pd.round].
  rewrite prepare_model_input_round.
  cbn -[classify select_attribution Py.round2 Fmt.format_2f].
  set (frame := Pd.mkDataFrame _ _).
  destruct (classify model X_test frame) as [c|e].
  - cbn -[select_attribution Py.round2 Fmt.format_2f].
    destruct (select_attribution _ _) as [sel|e];
      cbn -[Py.round2 Fmt.format_2f];
      unfold result_page, prediction_page, input_page, render;
      cbn -[Py.round2 Fmt.format_2f];
      repeat rewrite <- app_assoc; reflexivity.
  - unfold input_page. repeat rewrite <- app_assoc. reflexivity.
Qed.

(** ** The thresholds of a concrete reference dataset *)

Lemma thresholds_ordered_witness :
  Pd.rows example_X_test <> [] /\
  Pd.rows (model_input_of example_browser) <> [] /\
  exists c,
    classify example_model example_X_test (model_input_of example_browser)
      = Ok c /\
    low_threshold c <= mid_threshold c.
Proof.
  split; [discriminate|]. split; [discriminate|].
  apply (thresholds_ordered example_model example_X_test
           (model_input_of example_browser)); discriminate.
Defined.

(** ** The rounded values are the ones used *)

Lemma round2_rounds (l : list Q) : Forall2 rounds_to l (map Py.round2 l).
Proof.
  induction l as [|x t IH]; simpl; constructor; [|assumption].
  apply round2_rounds_to.
Qed.

Lemma classify_predicted_proba (model : Model) (X_test : Pd.DataFrame)
    (cols : list string) (row : list Q) (c : Classification) :
  classify model X_test (Pd.mkDataFrame cols [row]) = Ok c ->
  predicted_proba c = predict_row model row.
Proof.
  intro H. apply classify_inv in H as (H & _).
  unfold predict_proba in H. cbn in H. now injection H as <-.
Qed.

(** The float 2.675 is rounded to the float 2.68: the float product with 100
    is exactly 267.5, a tie, which goes to the even 268. *)
Example round2_of_2_675 :
  Py.double (2675 # 1000) == 3011782250804019 # 1125899906842624 /\
  Py.double ((3011782250804019 # 1125899906842624) * 100) == 2675 # 10 /\
  Py.round2 (3011782250804019 # 1125899906842624) == Py.double (268 # 100).
Proof. repeat split; vm_compute; reflexivity. Qed.

Lemma block_page_input (model : Model) (X_test frame : Pd.DataFrame)
    (s : State) :
  exists rest,
    page (snd (block_outcome model X_test frame s))
    = (page s ++ input_page frame ++ rest)%list.
Proof.
  unfold block_outcome.
  destruct (classify model X_test frame) as [c|e].
  - destruct (select_attribution _ _) as [sel|e]; cbn [snd page].
    + exists (prediction_page c
              ++ [Image (mkFigure (snd sel) (fst sel) frame)])%list.
      reflexivity.
    + exists (prediction_page c). reflexivity.
  - exists []. cbn [snd page]. now rewrite app_nil_r.
Qed.

Lemma block_page_prediction (model : Model) (X_test frame : Pd.DataFrame)
    (s : State) (c : Classification) :
  classify model X_test frame = Ok c ->
  exists rest,
    page (snd (block_outcome model X_test frame s))
    = (page s ++ input_page frame ++ prediction_page c ++ rest)%list /\
    (rest = [] \/ exists fig, rest = [Image fig]).
Proof.
  intro Hc. unfold block_outcome. rewrite Hc.
  destruct (select_attribution _ _) as [sel|e]; cbn [snd page].
  - eexists. split; [reflexivity|]. right. eexists. reflexivity.
  - exists []. split; [now rewrite app_nil_r|now left].
Qed.

(** C6.  The submitted block rounds its six inputs to two decimals before
    any use.  Each rounded cell is the float nearest to a whole number of
    hundredths, that number being the integer nearest to the float product
    of the input and 100 (ties to even); for an input of at most 1000 in
    absolute value it is within half a hundredth of the input, up to the
    error of the two float operations.  The frame of the rounded cells is
    what is shown under "Model Input Features", before anything can fail,
    and every later step of the block uses that frame and nothing else: the
    model is evaluated on the rounded cells, and the explainer and the force
    plot get the same frame. *)
Theorem inputs_rounded_before_use (model : Model) (X_test : Pd.DataFrame)
    (inputs : list Q) (s : State) (Hlen : length inputs = 6%nat) :
  let rounded := map Py.round2 inputs in
  let frame := Pd.mkDataFrame feature_names [rounded] in
  let s' := snd (submitted_block model X_test inputs s) in
  Forall2 rounds_to inputs rounded /\
  (forall x, In x inputs -> Qabs x <= 1000 ->
     Qabs (Py.round2 x - x) <= (1 # 200) + (1 # 1000000000000)) /\
  nth_error (page s') (length (page s) + 1) = Some (Dataframe frame) /\
  submitted_block model X_test inputs s = block_outcome model X_test frame s /\
  (forall c, classify model X_test frame = Ok c ->
     predicted_proba c = predict_row model rounded /\
     In (Markdown ("**Estimated probability:** "
                     ++ Fmt.format_2f (probability c) ++ "%")) (page s')) /\
  (forall c sel, classify model X_test frame = Ok c ->
     select_attribution (shap_values (TreeExplainer model) frame)
       (expected_value (TreeExplainer model)) = Ok sel ->
     fst (submitted_block model X_test inputs s) = Ok tt /\
     In (Image (mkFigure (snd sel) (fst sel) frame)) (page s')).
Proof.
  intros rounded frame s'.
  pose proof (submitted_block_outcome model X_test inputs s Hlen) as E.
  fold rounded in E. fold frame in E.
  split; [apply round2_rounds|].
  split; [intros x _ Hx; now apply round2_close|].
  split.
  { unfold s'. rewrite E.
    destruct (block_page_input model X_test frame s) as (rest & ->).
    rewrite nth_error_app2 by lia.
    replace (length (page s) + 1 - length (page s))%nat with 1%nat by lia.
    reflexivity. }
  split; [exact E|]. split.
  - intros c Hc. split; [exact (classify_predicted_proba _ _ _ _ _ Hc)|].
    unfold s'. rewrite E.
    destruct (block_page_prediction model X_test frame s c Hc)
      as (rest & -> & _).
    apply in_or_app. right. apply in_or_app. right.
    apply in_or_app. left. simpl. tauto.
  - intros c sel Hc Hsel. unfold s'. rewrite E.
    unfold block_outcome. rewrite Hc, Hsel. cbn [fst snd page].
    split; [reflexivity|].
    apply in_or_app. right. unfold result_page.
    apply in_or_app. right. apply in_or_app. right. simpl. tauto.
Qed.

Lemma inputs_rounded_before_use_witness :
  length example_inputs = 6%nat /\
  Forall2 rounds_to example_inputs (map Py.round2 example_inputs) /\
  nth_error
    (page (snd (submitted_block example_model example_X_test example_inputs
                  (mkState header example_files))))
    (length header + 1)
  = Some (Dataframe
            (Pd.mkDataFrame feature_names [map Py.round2 example_inputs])).
Proof.
  split; [reflexivity|].
  destruct (inputs_rounded_before_use example_model example_X_test
              example_inputs (mkState header example_files) eq_refl)
    as (H1 & _ & H3 & _).
  split; [exact H1|exact H3].
Defined.

(** ** The report of a prediction *)

Lemma stratify_advice (p low mid : Q) :
  In (fst (stratify p low mid)) [LOW_RISK; MODERATE_RISK; HIGH_RISK] /\
  snd (stratify p low mid) = advice (fst (stratify p low mid)).
Proof.
  unfold stratify.
  destruct (Qle_bool p low); [|destruct (Qle_bool p mid)];
    (split; [simpl; tauto|reflexivity]).
Qed.

Lemma stratify_tiers (p low mid : Q) :
  low <= mid ->
  (fst (stratify p low mid) = LOW_RISK <-> p <= low) /\
  (fst (stratify p low mid) = MODERATE_RISK <-> low < p /\ p <= mid) /\
  (fst (stratify p low mid) = HIGH_RISK <-> mid < p).
Proof.
  intro H. destruct tiers_distinct as (LM & LH & MH).
  unfold stratify.
  destruct (Qle_bool p low) eqn:E1;
    [|destruct (Qle_bool p mid) eqn:E2]; qbool; cbn [fst];
    repeat split; intros; try tauto; try lra; try congruence;
    try (exfalso; intuition congruence); try (intuition lra).
Qed.

Lemma stratify_order (p1 p2 low mid : Q) :
  p1 <= p2 ->
  (fst (stratify p2 low mid) = LOW_RISK -> fst (stratify p1 low mid) = LOW_RISK) /\
  (fst (stratify p1 low mid) = HIGH_RISK -> fst (stratify p2 low mid) = HIGH_RISK).
Proof.
  intro H. destruct tiers_distinct as (LM & LH & MH).
  unfold stratify.
  destruct (Qle_bool p1 low) eqn:A1; destruct (Qle_bool p2 low) eqn:A2;
    destruct (Qle_bool p1 mid) eqn:B1; destruct (Qle_bool p2 mid) eqn:B2;
    qbool; cbn [fst]; split; intros; try congruence; try lra.
Qed.

Lemma classify_thresholds_ordered (model : Model)
    (X_test model_input : Pd.DataFrame) (c : Classification) :
  classify model X_test model_input = Ok c ->
  low_threshold c <= mid_threshold c.
Proof.
  intro Hc. destruct (classify_inv _ _ _ _ Hc) as (_ & _ & Plo & Pmi & _).
  apply (percentile_mono _ (5394 # 100) (899 # 10) _ _) with (4 := Plo) (5 := Pmi);
    lra.
Qed.

Lemma classify_tier (model : Model) (X_test model_input : Pd.DataFrame)
    (c : Classification) :
  classify model X_test model_input = Ok c ->
  risk_level c
  = fst (stratify (snd (predicted_proba c)) (low_threshold c) (mid_threshold c))
  /\ suggestion c
  = snd (stratify (snd (predicted_proba c)) (low_threshold c) (mid_threshold c)).
Proof.
  intro Hc. destruct (classify_inv _ _ _ _ Hc) as (_ & _ & _ & _ & Hs).
  rewrite <- Hs. split; reflexivity.
Qed.

(** C7.  Every prediction reports the percentage [p * 100], where [p] is the
    positive-class probability of the one-row model input and the product
    is the float product of the script (the float nearest to [p] times 100,
    less than a hundred-million-millionth away from it for a probability
    between 0 and 1), together with the tier of [p] against the two
    percentile thresholds of the reference probabilities (LOW up to the
    lower one, MODERATE up to the upper one, HIGH above) and the advice of
    that tier: the advice is a function of the tier alone, one fixed text
    per tier.  The submitted block puts the percentage, in the [%.2f]
    format, and the tier with its advice on the page. *)
Theorem classification_report (model : Model) (X_test model_input : Pd.DataFrame)
    (c : Classification) (Hc : classify model X_test model_input = Ok c) :
  let p := snd (predicted_proba c) in
  Py.index (predict_proba model model_input) 0%Z = Ok (predicted_proba c) /\
  probability c = Py.double (p * 100) /\
  (0 <= p -> p <= 1 ->
   Qabs (probability c - p * 100) <= 1 # 70368744177664) /\
  Np.percentile (map snd (predict_proba model X_test)) (5394 # 100)
    = Ok (low_threshold c) /\
  Np.percentile (map snd (predict_proba model X_test)) (899 # 10)
    = Ok (mid_threshold c) /\
  (risk_level c = LOW_RISK <-> p <= low_threshold c) /\
  (risk_level c = MODERATE_RISK
   <-> low_threshold c < p /\ p <= mid_threshold c) /\
  (risk_level c = HIGH_RISK <-> mid_threshold c < p) /\
  In (risk_level c) [LOW_RISK; MODERATE_RISK; HIGH_RISK] /\
  suggestion c = advice (risk_level c) /\
  advice LOW_RISK <> advice MODERATE_RISK /\
  advice LOW_RISK <> advice HIGH_RISK /\
  advice MODERATE_RISK <> advice HIGH_RISK /\
  (forall inputs s,
      length inputs = 6%nat ->
      model_input = Pd.mkDataFrame feature_names [map Py.round2 inputs] ->
      let s' := snd (submitted_block model X_test inputs s) in
      In (Markdown ("**Estimated probability:** "
                      ++ Fmt.format_2f (probability c) ++ "%")) (page s') /\
      In (Markdown (risk_level c ++ nl ++ nl ++ suggestion c)) (page s')).
Proof.
  intro p.
  destruct (classify_inv _ _ _ _ Hc) as (Hp & Hprob & Plo & Pmi & _).
  destruct (classify_tier _ _ _ _ Hc) as [Ht Hs].
  pose proof (classify_thresholds_ordered _ _ _ _ Hc) as Hord.
  destruct (stratify_tiers p _ _ Hord) as (TL & TM & TH).
  pose proof (stratify_advice p (low_threshold c) (mid_threshold c))
    as [Hin Hadv].
  fold p in Ht, Hs, Hprob. rewrite <- Ht in TL, TM, TH, Hin, Hadv.
  rewrite <- Hs in Hadv.
  assert (Hclose : 0 <= p -> p <= 1 ->
                   Qabs (probability c - p * 100) <= 1 # 70368744177664).
  { intros P0 P1. rewrite Hprob.
    apply (double_close (p * 100) 7); [|lia].
    apply Qabs_Qle_condition. change (2 ^ 7) with 128. split; lra. }
  repeat match goal with |- _ /\ _ => split end;
    try assumption; try discriminate.
  intros inputs s Hlen -> s'. unfold s'.
  rewrite (submitted_block_outcome _ _ _ _ Hlen).
  destruct (block_page_prediction _ _ _ s c Hc) as (rest & -> & _).
  split; apply in_or_app; right; apply in_or_app; right;
    apply in_or_app; left; simpl; tauto.
Qed.

Lemma example_classify :
  classify example_model example_X_test (model_input_of example_browser)
  = Ok example_classification.
Proof. vm_compute. reflexivity. Qed.

Lemma classification_report_witness :
  classify example_model example_X_test (model_input_of example_browser)
    = Ok example_classification /\
  probability example_classification
    = Py.double (snd (predicted_proba example_classification) * 100) /\
  (risk_level example_classification = MODERATE_RISK
   <-> low_threshold example_classification
         < snd (predicted_proba example_classification)
       /\ snd (predicted_proba example_classification)
            <= mid_threshold example_classification) /\
  suggestion example_classification
    = advice (risk_level example_classification).
Proof.
  split; [exact example_classify|].
  pose proof (classification_report _ _ _ _ example_classify)
    as (_ & Hp & _ & _ & _ & _ & Hm & _ & _ & Ha & _).
  split; [exact Hp|]. split; [exact Hm|exact Ha].
Defined.

(** ** The displayed percentage *)

(** C10.  In the submitted block the probability text, the tier and the
    advice come from one evaluation of the model, on the rounded input.
    With [p] its positive-class probability, the percentage that is
    displayed is the product [p * 100] of the script, a float product of
    that very [p], the tier is the tier of the same [p] against the
    thresholds, and the two texts are put on the page side by side, once
    each, the percentage in the [%.2f] format.  So the shown percentage and
    the shown tier go together: of two submissions to the same model and
    reference data, the one with the larger percentage never has the lower
    tier. *)
Theorem displayed_probability_consistent (model : Model)
    (X_test : Pd.DataFrame) (inputs : list Q) (s : State) (c : Classification)
    (Hlen : length inputs = 6%nat)
    (Hc : classify model X_test
            (Pd.mkDataFrame feature_names [map Py.round2 inputs]) = Ok c) :
  let frame := Pd.mkDataFrame feature_names [map Py.round2 inputs] in
  let p := snd (predict_row model (map Py.round2 inputs)) in
  let s' := snd (submitted_block model X_test inputs s) in
  predicted_proba c = predict_row model (map Py.round2 inputs) /\
  probability c = Py.double (p * 100) /\
  risk_level c = fst (stratify p (low_threshold c) (mid_threshold c)) /\
  suggestion c = snd (stratify p (low_threshold c) (mid_threshold c)) /\
  (exists rest,
      page s'
      = (page s ++ input_page frame
           ++ [ Subheader "Prediction Result & Explanation";
                Markdown ("**Estimated probability:** "
                            ++ Fmt.format_2f (Py.double (p * 100)) ++ "%");
                Markdown (risk_level c ++ nl ++ nl ++ suggestion c);
                Subheader "SHAP Force Plot Explanation" ]
           ++ rest)%list /\
      (rest = [] \/ exists fig, rest = [Image fig])) /\
  (forall inputs2 c2,
      classify model X_test
        (Pd.mkDataFrame feature_names [map Py.round2 inputs2]) = Ok c2 ->
      probability c < probability c2 ->
      (risk_level c2 = LOW_RISK -> risk_level c = LOW_RISK) /\
      (risk_level c = HIGH_RISK -> risk_level c2 = HIGH_RISK)).
Proof.
  intros frame p s'.
  pose proof (classify_predicted_proba _ _ _ _ _ Hc) as Hpp.
  destruct (classify_inv _ _ _ _ Hc) as (_ & Hprob & Plo & Pmi & _).
  destruct (classify_tier _ _ _ _ Hc) as [Ht Hs].
  assert (Ep : snd (predicted_proba c) = p) by (unfold p; now rewrite Hpp).
  rewrite Ep in Hprob, Ht, Hs.
  split; [exact Hpp|]. split; [exact Hprob|].
  split; [exact Ht|]. split; [exact Hs|]. split.
  - unfold s'. rewrite (submitted_block_outcome _ _ _ _ Hlen).
    destruct (block_page_prediction _ _ _ s c Hc) as (rest & E & Hrest).
    exists rest. split; [|exact Hrest].
    rewrite E. unfold prediction_page. now rewrite Hprob.
  - intros inputs2 c2 Hc2 Hle.
    destruct (classify_inv _ _ _ _ Hc2) as (_ & Hprob2 & Plo2 & Pmi2 & _).
    destruct (classify_tier _ _ _ _ Hc2) as [Ht2 _].
    assert (El : low_threshold c2 = low_threshold c) by congruence.
    assert (Em : mid_threshold c2 = mid_threshold c) by congruence.
    rewrite El, Em in Ht2. rewrite Ht, Ht2.
    apply stratify_order. rewrite Hprob, Hprob2 in Hle.
    apply double_lt_inv in Hle. lra.
Qed.

Lemma displayed_probability_consistent_witness :
  length example_inputs = 6%nat /\
  classify example_model example_X_test
    (Pd.mkDataFrame feature_names [map Py.round2 example_inputs])
    = Ok example_classification /\
  probability example_classification
    = Py.double
        (snd (predict_row example_model (map Py.round2 example_inputs)) * 100)
  /\
  risk_level example_classification
    = fst (stratify
             (snd (predict_row example_model (map Py.round2 example_inputs)))
             (low_threshold example_classification)
             (mid_threshold example_classification)).
Proof.
  split; [reflexivity|]. split; [exact example_classify|].
  destruct (displayed_probability_consistent example_model example_X_test
              example_inputs (mkState header example_files)
              example_classification eq_refl example_classify)
    as (_ & Hp & Ht & _).
  split; [exact Hp|exact Ht].
Defined.

(** ** The attribution that is plotted *)

Lemma index_nth_error {A : Type} (l : list A) (i : nat) :
  Py.index l (Z.of_nat i)
  = match nth_error l i with
    | Some a => Ok a
    | None => Raise "IndexError"
    end.
Proof.
  unfold Py.index.
  replace (Z.of_nat i <? 0)%Z with false by (symmetry; apply Z.ltb_ge; lia).
  replace (0 <=? Z.of_nat i)%Z with true by (symmetry; apply Z.leb_le; lia).
  rewrite Nat2Z.id. cbn [andb].
  destruct (Z.of_nat i <? Z.of_nat (length l))%Z eqn:E; [reflexivity|].
  apply Z.ltb_ge in E.
  assert (N : nth_error l i = None) by (apply nth_error_None; lia).
  now rewrite N.
Qed.

(** C9.  Both shapes of [explainer.shap_values] are handled.  A single array
    is plotted as it is, with the explainer's expected value as it is.  Of a
    per-class list the entry at index 1, the positive class, is plotted with
    the entry at index 1 of the expected values; no other entry is ever
    selected, and the selection fails only when index 1 does not exist. *)
Theorem select_attribution_positive_class :
  (forall a ev, select_attribution (ShapArray a) ev = Ok (a, ev)) /\
  (forall per_class evs sv e,
      nth_error per_class 1 = Some sv -> nth_error evs 1 = Some e ->
      select_attribution (ShapList per_class) (Array evs) = Ok (sv, e)) /\
  (forall per_class ev sv e,
      select_attribution (ShapList per_class) ev = Ok (sv, e) ->
      nth_error per_class 1 = Some sv /\
      exists evs, ev = Array evs /\ nth_error evs 1 = Some e).
Proof.
  split; [reflexivity|]. split.
  - intros per_class evs sv e Hs He. unfold select_attribution, item1.
    change 1%Z with (Z.of_nat 1). rewrite !index_nth_error, Hs, He.
    reflexivity.
  - intros per_class ev sv e H. unfold select_attribution, item1 in H.
    change 1%Z with (Z.of_nat 1) in H. rewrite index_nth_error in H.
    destruct (nth_error per_class 1) as [sv'|]; [|discriminate].
    cbn [bind] in H. destruct ev as [x|evs]; [discriminate|].
    rewrite index_nth_error in H.
    destruct (nth_error evs 1) as [e'|] eqn:E; [|discriminate].
    cbn [bind] in H. injection H as <- <-.
    split; [reflexivity|]. exists evs. split; [reflexivity|assumption].
Qed.

Lemma select_attribution_positive_class_witness :
  select_attribution
    (ShapList [Array [Scalar (-1 # 10)]; Array [Scalar (1 # 10)]])
    (Array [Scalar (7 # 10); Scalar (3 # 10)])
  = Ok (Array [Scalar (1 # 10)], Scalar (3 # 10)).
Proof.
  apply (proj1 (proj2 select_attribution_positive_class)); reflexivity.
Defined.

(** ** Runs do not depend on earlier runs *)

















(** ** Where a run ends *)

Lemma position_none (col : string) (cols : list string) :
  ~ In col cols -> Pd.position col cols = None.
Proof.
  induction cols as [|c t IH]; simpl; [reflexivity|].
  intro H. destruct (String.eqb c col) eqn:E.
  - apply String.eqb_eq in E. tauto.
  - rewrite IH by tauto. reflexivity.
Qed.

Lemma position_some (col : string) (cols : list string) :
  In col cols -> exists i, Pd.position col cols = Some i.
Proof.
  induction cols as [|c t IH]; simpl; [tauto|].
  intro H. destruct (String.eqb c col) eqn:E.
  - now exists O.
  - destruct H as [H|H]; [apply String.eqb_neq in E; congruence|].
    destruct (IH H) as [i ->]. now exists (S i).
Qed.

(** [int(X_test[col].min())]: [KeyError] without the column, [ValueError]
    on a column without cells, an integer otherwise. *)
Lemma int_min_outcome (X_test : Pd.DataFrame) (col : string) :
  (~ In col (Pd.columns X_test) /\ int_min X_test col = Raise "KeyError") \/
  (In col (Pd.columns X_test) /\ Pd.rows X_test = []
   /\ int_min X_test col = Raise "ValueError") \/
  (In col (Pd.columns X_test) /\ Pd.rows X_test <> []
   /\ exists k, int_min X_test col = Ok k).
Proof.
  unfold int_min, Pd.getitem.
  destruct (in_dec string_dec col (Pd.columns X_test)) as [Hin|Hout].
  - right. destruct (position_some _ _ Hin) as [i ->]. cbn [bind].
    destruct (Pd.rows X_test) as [|r rs].
    + left. split; [assumption|]. split; reflexivity.
    + right. split; [assumption|]. split; [discriminate|].
      cbn. eexists. reflexivity.
  - left. rewrite (position_none _ _ Hout). split; [assumption|reflexivity].
Qed.

(** Lines 37-43.  The call of [st.number_input] for the age mixes [int]
    bounds with a [float] value and step, which Streamlit refuses. *)
Lemma age_widget_outcome (b : Browser) (X_test : Pd.DataFrame) (s : State) :
  widget b X_test "Age (years)" s
  = (match int_min X_test "Age (years)" with
     | Ok _ => Raise "StreamlitMixedNumericTypesError"
     | Raise e => Raise e
     end, s).
Proof.
  unfold widget. cbn -[int_min round_median].
  unfold int_min, round_median, mbind, lift.
  destruct (Pd.getitem X_test "Age (years)") as [col|e]; cbn [bind];
    [|reflexivity].
  destruct (Py.int (Pd.min col)) as [k|e]; reflexivity.
Qed.

(** One run, whatever the browser holds: without one of the two files it
    ends after the title and the caption; with both it ends below the form
    heading, at the age field. *)
Lemma run_outcome (b : Browser) (fs : Files) :
  run b fs
  = match LGB_pkl fs, x_test_csv fs with
    | Some _, Some X_test =>
        (match int_min X_test "Age (years)" with
         | Ok _ => Raise "StreamlitMixedNumericTypesError"
         | Raise e => Raise e
         end, mkState header fs)
    | _, _ =>
        (Raise "FileNotFoundError",
         mkState
           [ Title "Prediction of Cardiovascular Risk in New–onset T2D";
             Caption "Based on TyG Index and Carotid Ultrasound Features" ]
           fs)
    end.
Proof.
  unfold run, script.
  unfold mbind at 1, St.title. cbn [render page files].
  unfold mbind at 1, St.caption. cbn [render page files app].
  unfold mbind at 1, joblib_load_LGB. cbn [files].
  destruct (LGB_pkl fs) as [model|] eqn:EM; [|reflexivity].
  unfold mbind at 1, read_csv_x_test. cbn [files].
  destruct (x_test_csv fs) as [X_test|] eqn:EX; [|reflexivity].
  unfold mbind at 1, St.subheader. cbn [render page files app].
  unfold mbind at 1. cbn [form_inputs feature_names].
  unfold mbind at 1. rewrite age_widget_outcome.
  destruct (int_min X_test "Age (years)") as [k|e]; reflexivity.
Qed.

Lemma run_raises (b : Browser) (fs : Files) :
  exists e, fst (run b fs) = Raise e /\
    In e ["FileNotFoundError"; "KeyError"; "ValueError";
          "StreamlitMixedNumericTypesError"].
Proof.
  rewrite run_outcome.
  destruct (LGB_pkl fs); [|eexists; split; [reflexivity|simpl; tauto]].
  destruct (x_test_csv fs) as [X_test|];
    [|eexists; split; [reflexivity|simpl; tauto]].
  cbn [fst].
  destruct (int_min_outcome X_test "Age (years)")
    as [(_ & ->)|[(_ & _ & ->)|(_ & _ & k & ->)]];
    eexists; (split; [reflexivity|simpl; tauto]).
Qed.

Lemma run_never (b : Browser) (fs : Files) (e : string) :
  ~ In e ["FileNotFoundError"; "KeyError"; "ValueError";
          "StreamlitMixedNumericTypesError"] ->
  fst (run b fs) <> Raise e.
Proof.
  intros Hn H. destruct (run_raises b fs) as (e' & E & Hin).
  rewrite E in H. injection H as ->. contradiction.
Qed.

Lemma run_never_validation_error (b : Browser) (fs : Files) :
  fst (run b fs) <> Raise "ValidationError".
Proof.
  apply run_never. simpl. intros [H|[H|[H|[H|[]]]]]; discriminate.
Qed.

(** With both files and at least one age in the reference data. *)
Lemma run_mixed_types (b : Browser) (fs : Files) (model : Model)
    (X_test : Pd.DataFrame) :
  LGB_pkl fs = Some model -> x_test_csv fs = Some X_test ->
  In "Age (years)" (Pd.columns X_test) -> Pd.rows X_test <> [] ->
  run b fs = (Raise "StreamlitMixedNumericTypesError", mkState header fs).
Proof.
  intros EM EX Hcol Hrows. rewrite run_outcome, EM, EX.
  destruct (int_min_outcome X_test "Age (years)")
    as [(H & _)|[(_ & H & _)|(_ & _ & k & ->)]];
    [contradiction|contradiction|reflexivity].
Qed.

Lemma run_page (b : Browser) (fs : Files) :
  files (snd (run b fs)) = fs /\
  forall el, In el (page (snd (run b fs))) -> In el header.
Proof.
  rewrite run_outcome.
  destruct (LGB_pkl fs); [destruct (x_test_csv fs)|]; cbn [snd files page];
    (split; [reflexivity|]); intros el H; try exact H;
    unfold header; simpl in *; tauto.
Qed.

(** ** An empty reference dataset *)

Lemma classify_empty (model : Model) (X_test model_input : Pd.DataFrame) :
  Pd.rows X_test = [] ->
  classify model X_test model_input = Raise "IndexError".
Proof.
  intro H. unfold classify, predict_proba at 2. rewrite H. cbn [map].
  destruct (Py.index (predict_proba model model_input) 0%Z) as [pp|e] eqn:E.
  - reflexivity.
  - cbn [bind]. unfold Py.index in E.
    destruct (_ && _)%bool; [destruct (nth_error _ _); [discriminate|]|];
      injection E as <-; reflexivity.
Qed.

(** C3, as the script has it.  With a reference dataset without rows the
    run ends in an exception before any widget is drawn: building the age
    input raises [ValueError] ([int] of the NaN minimum of an empty column;
    [KeyError] when the column is missing).  The page holds the title, the
    caption and the form heading only: no probability, tier or threshold.
    The submitted block is not reached; on its own, [classify] on such a
    dataset raises [IndexError] from [np.percentile].  No run ever raises
    [InsufficientDataError]. *)
Theorem empty_reference_fails (b : Browser) (fs : Files) (model : Model)
    (X_test : Pd.DataFrame)
    (HM : LGB_pkl fs = Some model) (HX : x_test_csv fs = Some X_test)
    (Hempty : Pd.rows X_test = []) :
  (exists e, run b fs = (Raise e, mkState header fs) /\
             (e = "ValueError" \/ e = "KeyError")) /\
  (forall model_input,
      classify model X_test model_input = Raise "IndexError") /\
  (forall b' fs', fst (run b' fs') <> Raise "InsufficientDataError").
Proof.
  split; [|split].
  - rewrite run_outcome, HM, HX.
    destruct (int_min_outcome X_test "Age (years)")
      as [(_ & ->)|[(_ & _ & ->)|(_ & H & _)]];
      [| |contradiction]; eexists; (split; [reflexivity|tauto]).
  - intro model_input. now apply classify_empty.
  - intros b' fs'. apply run_never.
    simpl. intros [H|[H|[H|[H|[]]]]]; discriminate.
Qed.

Lemma empty_reference_fails_witness :
  LGB_pkl empty_files = Some example_model /\
  x_test_csv empty_files = Some empty_X_test /\
  Pd.rows empty_X_test = [] /\
  exists e, run example_browser empty_files
              = (Raise e, mkState header empty_files) /\
            (e = "ValueError" \/ e = "KeyError").
Proof.
  split; [reflexivity|]. split; [reflexivity|]. split; [reflexivity|].
  exact (proj1 (empty_reference_fails example_browser empty_files
                  example_model empty_X_test eq_refl eq_refl eq_refl)).
Defined.

(** C3 as stated fails: the run on an empty reference dataset ends with a
    [ValueError], and [classify] on it with an [IndexError], neither of
    which is an [InsufficientDataError]. *)
Lemma empty_reference_not_insufficient_data :
  fst (run example_browser empty_files) = Raise "ValueError" /\
  fst (run example_browser empty_files) <> Raise "InsufficientDataError" /\
  classify example_model empty_X_test (model_input_of example_browser)
    = Raise "IndexError" /\
  classify example_model empty_X_test (model_input_of example_browser)
    <> Raise "InsufficientDataError".
Proof.
  repeat split; try (vm_compute; reflexivity); vm_compute; discriminate.
Qed.

(** ** No validation step *)

(** C4, as the script has it.  The Hypertension field is a select box whose
    only options are 0 and 1: whatever position the browser selects, what
    the field returns is 0 or 1 (an [IndexError] for a position that has no
    option), so no other value can come out of the form.  Nothing is
    validated, and no run raises [ValidationError]. *)
Theorem hypertension_restricted_by_select_box (b : Browser)
    (X_test : Pd.DataFrame) (s : State) :
  let shown :=
    mkState (page s ++ [Selectbox "Hypertension" [0; 1] 0]) (files s) in
  (choice b "Hypertension" = 0%nat ->
   widget b X_test "Hypertension" s = (Ok 0, shown)) /\
  (choice b "Hypertension" = 1%nat ->
   widget b X_test "Hypertension" s = (Ok 1, shown)) /\
  ((2 <= choice b "Hypertension")%nat ->
   widget b X_test "Hypertension" s = (Raise "IndexError", s)) /\
  (forall v, fst (widget b X_test "Hypertension" s) = Ok v -> v = 0 \/ v = 1) /\
  (forall b' fs', fst (run b' fs') <> Raise "ValidationError").
Proof.
  intro shown. unfold widget. cbn [String.eqb Ascii.eqb Bool.eqb].
  unfold St.selectbox. cbn [length Nat.ltb Nat.leb].
  assert (Hout : (2 <= choice b "Hypertension")%nat ->
                 Py.index [0; 1] (Z.of_nat (choice b "Hypertension"))
                 = Raise "IndexError").
  { intro H. rewrite index_nth_error.
    destruct (choice b "Hypertension") as [|[|n]]; [lia|lia|].
    simpl. destruct n; reflexivity. }
  split; [intros ->; reflexivity|].
  split; [intros ->; reflexivity|].
  split; [intro H; unfold mbind, lift; now rewrite (Hout H)|].
  split; [|intros; apply run_never_validation_error].
  intros v. destruct (choice b "Hypertension") as [|[|n]] eqn:E.
  - cbn. intro H. injection H as <-. now left.
  - cbn. intro H. injection H as <-. now right.
  - unfold mbind, lift. rewrite Hout by lia. discriminate.
Qed.

Lemma hypertension_restricted_by_select_box_witness :
  choice example_browser "Hypertension" = 1%nat /\
  fst (widget example_browser example_X_test "Hypertension"
         (mkState header example_files)) = Ok 1.
Proof.
  split; [reflexivity|].
  destruct (hypertension_restricted_by_select_box example_browser
              example_X_test (mkState header example_files))
    as (_ & H & _).
  now rewrite (H eq_refl).
Defined.

(** C4 as stated fails: with a browser that holds 2 for Hypertension the
    run does not end with a [ValidationError]; like every run on these
    files it ends at the age field, the first of the form, with Streamlit's
    [StreamlitMixedNumericTypesError]. *)
Lemma hypertension_two_no_validation_error :
  entry two_browser "Hypertension" = 2 /\
  run two_browser example_files
  = (Raise "StreamlitMixedNumericTypesError", mkState header example_files) /\
  fst (run two_browser example_files) <> Raise "ValidationError" /\
  (forall b, fst (run b example_files) <> Raise "ValidationError").
Proof.
  split; [reflexivity|]. split; [vm_compute; reflexivity|].
  split; [vm_compute; discriminate|].
  intro b. apply run_never_validation_error.
Qed.




(** * Further properties of the script *)

(** ** The tier grows with the probability *)

(** X1.  Whatever the two thresholds are, a larger probability never gets a
    lower tier: below a probability that is LOW everything is LOW, above a
    probability that is HIGH everything is HIGH, and below a MODERATE one
    nothing is HIGH. *)
Theorem stratify_monotone (p1 p2 low mid : Q) (Hp : p1 <= p2) :
  (fst (stratify p2 low mid) = LOW_RISK -> fst (stratify p1 low mid) = LOW_RISK) /\
  (fst (stratify p1 low mid) = HIGH_RISK -> fst (stratify p2 low mid) = HIGH_RISK) /\
  (fst (stratify p2 low mid) = MODERATE_RISK ->
   fst (stratify p1 low mid) <> HIGH_RISK).
Proof.
  destruct tiers_distinct as (LM & LH & MH).
  unfold stratify.
  destruct (Qle_bool p1 low) eqn:A1; destruct (Qle_bool p2 low) eqn:A2;
    destruct (Qle_bool p1 mid) eqn:B1; destruct (Qle_bool p2 mid) eqn:B2;
    qbool; cbn [fst]; repeat split; intros; try congruence; try lra.
Qed.

Lemma stratify_monotone_witness :
  (1 # 10) <= (9 # 10) /\
  (fst (stratify (1 # 10) (3 # 10) (6 # 10)) = HIGH_RISK ->
   fst (stratify (9 # 10) (3 # 10) (6 # 10)) = HIGH_RISK).
Proof.
  split; [lra|].
  apply (stratify_monotone (1 # 10) (9 # 10) (3 # 10) (6 # 10)). lra.
Defined.

(** ** The model input is the rounded input frame *)

(** X7.  For the six values of the form the one-row frame is built without
    error, and rebuilding it cell by cell (lines 96-103) gives back the
    rounded frame itself: the model input is the frame that is displayed. *)
Theorem model_input_is_input_data (inputs : list Q)
    (Hlen : length inputs = 6%nat) :
  frame_of_inputs inputs = Ok (Pd.mkDataFrame feature_names [inputs]) /\
  prepare_model_input (Pd.round (Pd.mkDataFrame feature_names [inputs]))
  = Ok (Pd.round (Pd.mkDataFrame feature_names [inputs])).
Proof.
  do 6 (destruct inputs as [|? inputs]; [discriminate|]).
  destruct inputs; [|discriminate].
  split; reflexivity.
Qed.

Lemma model_input_is_input_data_witness :
  length [50; 0; 1; 12; 2; 1 # 3] = 6%nat /\
  prepare_model_input
    (Pd.round (Pd.mkDataFrame feature_names [[50; 0; 1; 12; 2; 1 # 3]]))
  = Ok (Pd.round (Pd.mkDataFrame feature_names [[50; 0; 1; 12; 2; 1 # 3]])).
Proof.
  split; [reflexivity|].
  exact (proj2 (model_input_is_input_data [50; 0; 1; 12; 2; 1 # 3] eq_refl)).
Defined.

(** ** Missing files *)

(** X5.  When the model file is missing, or the model is there and the
    reference data file is missing, the run ends with [FileNotFoundError]
    right after the title and the caption: no form is drawn and no file is
    touched. *)
Theorem missing_file_fails (b : Browser) (fs : Files)
    (Hmiss : LGB_pkl fs = None \/ x_test_csv fs = None) :
  run b fs
  = (Raise "FileNotFoundError",
     mkState
       [ Title "Prediction of Cardiovascular Risk in New–onset T2D";
         Caption "Based on TyG Index and Carotid Ultrasound Features" ]
       fs).
Proof.
  unfold run, script.
  unfold mbind at 1, St.title. cbn [render page files].
  unfold mbind at 1, St.caption. cbn [render page files app].
  unfold mbind at 1, joblib_load_LGB. cbn [files].
  destruct (LGB_pkl fs) as [model|] eqn:EM.
  - destruct Hmiss as [H|H]; [discriminate|].
    unfold mbind at 1, read_csv_x_test. cbn [files]. rewrite H. reflexivity.
  - reflexivity.
Qed.

Lemma missing_file_fails_witness :
  (LGB_pkl (mkFiles None (Some example_X_test) None) = None
   \/ x_test_csv (mkFiles None (Some example_X_test) None) = None) /\
  fst (run example_browser (mkFiles None (Some example_X_test) None))
  = Raise "FileNotFoundError".
Proof.
  split; [left; reflexivity|].
  rewrite (missing_file_fails example_browser
             (mkFiles None (Some example_X_test) None) (or_introl eq_refl)).
  reflexivity.
Defined.

(** ** Where the thresholds lie *)

Lemma In_sort (x : Q) (l : list Q) : In x (Np.sort l) -> In x l.
Proof.
  induction l as [|y t IH]; simpl; [tauto|].
  intro H. apply In_insert in H as [->|H]; [now left|right; now apply IH].
Qed.

Lemma interpolate_between (s : list Q) (v lo hi : Q) :
  ascending s -> s <> [] -> 0 <= v ->
  (forall x, In x s -> lo <= x /\ x <= hi) ->
  lo <= interpolate s v /\ interpolate s v <= hi.
Proof.
  intros Hasc Hs Hv Hb.
  assert (Hn : (0 < length s)%nat) by (destruct s; simpl; [congruence|lia]).
  unfold interpolate.
  destruct (Qle_bool (inject_Z (Z.of_nat (length s) - 1)) v) eqn:E; qbool.
  - apply Hb, nth_In. lia.
  - pose proof (Qfloor_nonneg v Hv) as F0.
    pose proof (Qfloor_below v _ E) as F1.
    pose proof (Qfloor_le v) as F2. pose proof (Qlt_floor v) as F3.
    rewrite inject_Z_plus in F3. change (inject_Z 1) with 1 in F3.
    set (i := Z.to_nat (Qfloor v)) in *.
    assert (Li : (S i < length s)%nat) by (subst i; lia).
    destruct (Hb (nth i s 0)) as [A1 A2]; [apply nth_In; lia|].
    destruct (Hb (nth (S i) s 0)) as [B1 B2]; [apply nth_In; lia|].
    assert (C : nth i s 0 <= nth (S i) s 0)
      by (apply ascending_nth; [assumption|lia|lia]).
    split; nra.
Qed.

Lemma percentile_between (a : list Q) (q x lo hi : Q) :
  0 <= q -> q <= 100 -> Np.percentile a q = Ok x ->
  (forall y, In y a -> lo <= y /\ y <= hi) ->
  lo <= x /\ x <= hi.
Proof.
  intros H0 H1 E Hb.
  destruct a as [|y t].
  - unfold Np.percentile, Np.quantile in E.
    destruct (_ && _)%bool; [|discriminate]. simpl in E.
    destruct (Np.get_indexes _ _) as [i j]. rewrite index_empty in E.
    discriminate.
  - destruct (percentile_interpolate (y :: t) q) as (z & P & Hz);
      [discriminate|assumption|assumption|].
    rewrite E in P. injection P as <-. rewrite Hz.
    apply interpolate_between.
    + apply sort_ascending.
    + intro K. pose proof (length_sort (y :: t)) as L.
      rewrite K in L. simpl in L. lia.
    + apply Qmult_le_0_compat.
      * change 0 with (inject_Z 0). rewrite <- Zle_Qle. simpl length. lia.
      * apply Qle_shift_div_l; lra.
    + intros w Hw. apply Hb. now apply In_sort.
Qed.

(** X2.  Both thresholds lie within the range of the reference
    probabilities: when every reference row has a positive-class probability
    between [lo] and [hi], so have the two thresholds.  In particular the
    thresholds of a classifier with probabilities in [0, 1] are in [0, 1]. *)
Theorem thresholds_within_reference (model : Model)
    (X_test model_input : Pd.DataFrame) (c : Classification) (lo hi : Q)
    (Hc : classify model X_test model_input = Ok c)
    (Hb : forall row, In row (Pd.rows X_test) ->
                      lo <= snd (predict_row model row)
                      /\ snd (predict_row model row) <= hi) :
  lo <= low_threshold c /\ low_threshold c <= hi /\
  lo <= mid_threshold c /\ mid_threshold c <= hi.
Proof.
  destruct (classify_inv _ _ _ _ Hc) as (_ & _ & Plo & Pmi & _).
  assert (Hy : forall y, In y (map snd (predict_proba model X_test)) ->
                         lo <= y /\ y <= hi).
  { intros y Hy. unfold predict_proba in Hy. rewrite map_map in Hy.
    apply in_map_iff in Hy as (row & <- & Hrow). now apply Hb. }
  assert (R1 : 0 <= 5394 # 100 /\ 5394 # 100 <= 100) by (split; lra).
  assert (R2 : 0 <= 899 # 10 /\ 899 # 10 <= 100) by (split; lra).
  destruct (percentile_between _ _ _ lo hi (proj1 R1) (proj2 R1) Plo Hy).
  destruct (percentile_between _ _ _ lo hi (proj1 R2) (proj2 R2) Pmi Hy).
  tauto.
Qed.

Lemma thresholds_within_reference_witness :
  classify example_model example_X_test (model_input_of example_browser)
    = Ok example_classification /\
  (forall row, In row (Pd.rows example_X_test) ->
               0 <= snd (predict_row example_model row)
               /\ snd (predict_row example_model row) <= 1) /\
  0 <= low_threshold example_classification /\
  mid_threshold example_classification <= 1.
Proof.
  assert (Hb : forall row, In row (Pd.rows example_X_test) ->
               0 <= snd (predict_row example_model row)
               /\ snd (predict_row example_model row) <= 1).
  { intros row Hrow. simpl in Hrow.
    destruct Hrow as [<-|[<-|[<-|[]]]]; vm_compute; split; discriminate. }
  split; [exact example_classify|]. split; [exact Hb|].
  destruct (thresholds_within_reference _ _ _ _ 0 1 example_classify Hb)
    as (A & _ & _ & B).
  split; assumption.
Defined.

(** ** A reference dataset of one row *)

Lemma percentile_single (y q x : Q) :
  0 <= q -> q <= 100 -> Np.percentile [y] q = Ok x -> x == y.
Proof.
  intros H0 H1 E.
  destruct (percentile_interpolate [y] q) as (z & P & Hz);
    [discriminate|assumption|assumption|].
  rewrite E in P. injection P as <-. rewrite Hz.
  unfold interpolate. cbn [Np.sort Np.insert length].
  assert (L : inject_Z (Z.of_nat 1 - 1) <= inject_Z (Z.of_nat 1 - 1) * (q / 100)).
  { change (inject_Z (Z.of_nat 1 - 1)) with 0. lra. }
  apply Qle_bool_iff in L. rewrite L. reflexivity.
Qed.

(** X3.  With a reference dataset of a single row both thresholds are the
    probability of that row, and the MODERATE tier is never assigned: a
    submission is LOW exactly when its probability is at most that of the
    reference row, and HIGH exactly when it is above. *)
Theorem single_reference_row (model : Model)
    (X_test model_input : Pd.DataFrame) (c : Classification) (row : list Q)
    (Hrows : Pd.rows X_test = [row])
    (Hc : classify model X_test model_input = Ok c) :
  low_threshold c == snd (predict_row model row) /\
  mid_threshold c == snd (predict_row model row) /\
  risk_level c <> MODERATE_RISK /\
  (risk_level c = LOW_RISK
   <-> snd (predicted_proba c) <= snd (predict_row model row)) /\
  (risk_level c = HIGH_RISK
   <-> snd (predict_row model row) < snd (predicted_proba c)).
Proof.
  destruct tiers_distinct as (LM & LH & MH).
  destruct (classify_inv _ _ _ _ Hc) as (_ & _ & Plo & Pmi & Hs).
  unfold predict_proba in Plo, Pmi. rewrite Hrows in Plo, Pmi.
  cbn [map] in Plo, Pmi.
  assert (Elo : low_threshold c == snd (predict_row model row))
    by (apply (percentile_single _ (5394 # 100)); [lra|lra|exact Plo]).
  assert (Emi : mid_threshold c == snd (predict_row model row))
    by (apply (percentile_single _ (899 # 10)); [lra|lra|exact Pmi]).
  split; [exact Elo|]. split; [exact Emi|].
  unfold stratify in Hs.
  destruct (Qle_bool (snd (predicted_proba c)) (low_threshold c)) eqn:A;
    [|destruct (Qle_bool (snd (predicted_proba c)) (mid_threshold c)) eqn:B];
    qbool; injection Hs as -> _;
    (split; [congruence || (exfalso; lra)|]);
    split; split; intro;
    first [reflexivity | lra | exfalso; congruence | exfalso; lra].
Qed.

Lemma single_reference_row_witness :
  Pd.rows fine_X_test = [[50; 0; 1; 14; 2; 1]] /\
  exists c,
    classify fine_model fine_X_test (model_input_of fine_browser) = Ok c /\
    risk_level c <> MODERATE_RISK.
Proof.
  split; [reflexivity|].
  destruct (classify_total fine_model fine_X_test (model_input_of fine_browser))
    as (c & Hc); [discriminate|discriminate|].
  exists c. split; [exact Hc|].
  destruct (single_reference_row fine_model fine_X_test _ c _ eq_refl Hc)
    as (_ & _ & H & _).
  exact H.
Defined.

(** ** A reference dataset without the age column *)

(** X6.  When the reference data have no column "Age (years)", the run ends
    with [KeyError] below the form heading, before the first widget: no
    widget is drawn, whether or not the data have rows. *)
Theorem missing_age_column_fails (b : Browser) (fs : Files) (model : Model)
    (X_test : Pd.DataFrame)
    (EM : LGB_pkl fs = Some model) (EX : x_test_csv fs = Some X_test)
    (Hcol : ~ In "Age (years)" (Pd.columns X_test)) :
  run b fs = (Raise "KeyError", mkState header fs).
Proof.
  unfold run, script.
  unfold mbind at 1, St.title. cbn [render page files].
  unfold mbind at 1, St.caption. cbn [render page files].
  unfold mbind at 1, joblib_load_LGB. cbn [files]. rewrite EM.
  unfold mbind at 1, read_csv_x_test. cbn [files]. rewrite EX.
  unfold mbind at 1, St.subheader. cbn [render page files app].
  cbn -[int_min round_median].
  unfold int_min, Pd.getitem. rewrite (position_none _ _ Hcol).
  reflexivity.
Qed.

Lemma missing_age_column_fails_witness :
  ~ In "Age (years)" (Pd.columns ageless_X_test) /\
  run example_browser ageless_files
  = (Raise "KeyError", mkState header ageless_files).
Proof.
  assert (H : ~ In "Age (years)" (Pd.columns ageless_X_test)).
  { simpl. intros [E|[]]. discriminate. }
  split; [exact H|].
  exact (missing_age_column_fails example_browser ageless_files example_model
           ageless_X_test eq_refl eq_refl H).
Defined.

(** ** An old picture is never shown *)



(** ** The default of a number input and its minimum *)

Lemma fold_min_le (t : list Q) (x : Q) :
  let r := fold_left (fun m y => if Qle_bool m y then m else y) t x in
  r <= x /\ forall y, In y t -> r <= y.
Proof.
  revert x. induction t as [|z t IH]; intro x; cbn [fold_left].
  - split; [lra|intros y []].
  - destruct (Qle_bool x z) eqn:E; qbool.
    + destruct (IH x) as [A B]. split; [exact A|].
      intros y [<-|Hy]; [lra|now apply B].
    + destruct (IH z) as [A B]. split; [lra|].
      intros y [<-|Hy]; [exact A|now apply B].
Qed.

Lemma min_le (s : list Q) (m : Q) :
  Pd.min s = Some m -> forall x, In x s -> m <= x.
Proof.
  destruct s as [|x0 t]; [discriminate|].
  intro H. injection H as <-.
  destruct (fold_min_le t x0) as [A B].
  intros x [<-|Hx]; [exact A|now apply B].
Qed.

Lemma median_ge (s : list Q) (md lo : Q) :
  Pd.median s = Some md -> (forall x, In x s -> lo <= x) -> lo <= md.
Proof.
  intros H Hlo. destruct s as [|x0 t]; [discriminate|].
  unfold Pd.median in H.
  set (srt := Np.sort (x0 :: t)) in *.
  assert (Hn : (0 < length srt)%nat)
    by (subst srt; rewrite length_sort; simpl; lia).
  assert (Hel : forall i, (i < length srt)%nat -> lo <= nth i srt 0).
  { intros i Hi. apply Hlo. apply In_sort. fold srt. now apply nth_In. }
  assert (Hh : (length srt / 2 < length srt)%nat)
    by (apply Nat.div_lt; lia).
  cbv zeta in H. set (h := (length srt / 2)%nat) in *.
  pose proof (Hel (h - 1)%nat ltac:(lia)) as A.
  pose proof (Hel h Hh) as B.
  destruct (Nat.even (length srt)); injection H as <-.
  - apply Qle_shift_div_l; lra.
  - exact B.
Qed.

Lemma int_le (m : Q) (k : Z) :
  0 <= m -> Py.int (Some m) = Ok k -> inject_Z k <= m.
Proof.
  intros Hm H. injection H as <-.
  destruct m as [n d]. cbn [Qnum Qden].
  assert (Hn : (0 <= n)%Z).
  { unfold Qle in Hm. cbn in Hm. lia. }
  rewrite Z.quot_div_nonneg by lia.
  exact (Qfloor_le (n # d)).
Qed.

Lemma default_at_least_minimum (X_test : Pd.DataFrame) (col : string)
    (s : list Q) (a : Z) (ad : option Q) :
  Pd.getitem X_test col = Ok s ->
  (forall x, In x s -> 0 <= x /\ x <= 1000000000000) ->
  int_min X_test col = Ok a -> round_median X_test col = Ok ad ->
  exists v, ad = Some v /\ inject_Z a <= v.
Proof.
  intros Hs Hrange Ha Hd. unfold int_min, round_median in *.
  assert (Hpos : forall x, In x s -> 0 <= x) by (intros x Hx; now apply Hrange).
  rewrite Hs in Ha, Hd. cbn [bind] in Ha, Hd.
  destruct (Pd.min s) as [m|] eqn:Em; [|discriminate].
  destruct (Py.int (Some m)) as [k|e] eqn:Ek; [|discriminate].
  assert (a = k) by congruence. subst a.
  assert (Ead : ad = round_opt (Pd.median s)) by congruence. subst ad.
  assert (Hne : s <> []) by (intro E; rewrite E in Em; discriminate).
  destruct (Pd.median s) as [md|] eqn:Emd.
  - exists (Py.round2 md). split; [reflexivity|].
    assert (Hm0 : 0 <= m).
    { destruct s as [|x0 t]; [congruence|].
      cbn [Pd.min] in Em. injection Em as <-.
      set (f := fun m y : Q => if Qle_bool m y then m else y).
      assert (K : forall t' x', (forall y, In y (x' :: t') -> 0 <= y) ->
                                0 <= fold_left f t' x').
      { induction t' as [|z t' IH]; intros x' Hx'; cbn [fold_left].
        - apply Hx'. now left.
        - apply IH. intros y [<-|Hy].
          + unfold f. destruct (Qle_bool x' z); apply Hx'; simpl; tauto.
          + apply Hx'. simpl. tauto. }
      apply K. exact Hpos. }
    pose proof (int_le _ _ Hm0 Ek) as Hkm.
    assert (Hk0 : (0 <= k)%Z).
    { injection Ek as <-. apply Z.quot_pos; [|lia].
      destruct m as [n d]. unfold Qle in Hm0. cbn in *. lia. }
    assert (Hm1 : m <= 1000000000000).
    { destruct s as [|x0 t]; [congruence|].
      apply Qle_trans with x0; [|apply Hrange; now left].
      apply (min_le _ _ Em). now left. }
    assert (Hk1 : (k <= 2 ^ 46)%Z).
    { assert (L : inject_Z k <= inject_Z 1000000000000)
        by (change (inject_Z 1000000000000) with 1000000000000; lra).
      rewrite <- Zle_Qle in L.
      change (2 ^ 46)%Z with 70368744177664%Z. lia. }
    apply round2_ge_integer; [lia|].
    apply Qle_trans with m; [exact Hkm|].
    apply (median_ge _ _ _ Emd). apply (min_le _ _ Em).
  - destruct s; [congruence|]. unfold Pd.median in Emd.
    destruct (Nat.even _); discriminate.
Qed.

(** X12.  For reference data whose ages and plaque burdens are not negative
    (and at most a million million, so that the hundredfold of the minimum
    is still an exact float), the default value of the Age input and of the
    plaque burden input (the median rounded to two decimals) is never below
    the minimum of the widget (the minimum truncated to an integer). *)
Theorem defaults_at_least_minimum (X_test : Pd.DataFrame) (d : FormData)
    (ages burdens : list Q)
    (Hd : form_data X_test = Ok d)
    (Hages : Pd.getitem X_test "Age (years)" = Ok ages)
    (Hburdens : Pd.getitem X_test "Carotid plaque burden" = Ok burdens)
    (Hpos : forall x, In x ages \/ In x burdens ->
                      0 <= x /\ x <= 1000000000000) :
  (exists v, age_default d = Some v /\ age_min d <= v) /\
  (exists v, burden_default d = Some v /\ burden_min d <= v).
Proof.
  unfold form_data in Hd.
  destruct (int_min X_test "Age (years)") as [a|] eqn:E1; [|discriminate].
  destruct (round_median X_test "Age (years)") as [ad|] eqn:E2;
    [|discriminate].
  destruct (int_min X_test "Carotid plaque burden") as [u|] eqn:E3;
    [|discriminate].
  destruct (round_median X_test "Carotid plaque burden") as [ud|] eqn:E4;
    [|discriminate].
  destruct (round_median X_test "Plaque thickness (mm)") as [pd|] eqn:E5;
    [|discriminate].
  cbn [bind] in Hd. injection Hd as <-. cbn.
  split.
  - apply (default_at_least_minimum X_test "Age (years)" ages);
      auto.
  - apply (default_at_least_minimum X_test "Carotid plaque burden" burdens);
      auto.
Qed.

Lemma example_form_data_ok : form_data example_X_test = Ok example_form_data.
Proof. vm_compute. reflexivity. Qed.

Lemma defaults_at_least_minimum_witness :
  form_data example_X_test = Ok example_form_data /\
  (exists v, age_default example_form_data = Some v
             /\ age_min example_form_data <= v).
Proof.
  split; [exact example_form_data_ok|].
  refine (proj1 (defaults_at_least_minimum example_X_test example_form_data
                   [40; 60; 70] [2; 3; 4] example_form_data_ok
                   eq_refl eq_refl _)).
  intros x [H|H]; simpl in H;
    repeat destruct H as [<-|H]; try destruct H;
    split; vm_compute; discriminate.
Defined.

(** ** No run gets past the age field *)

(** X4.  Whatever the browser holds, submitted or not, a run never
    completes: it writes no file and shows nothing but the title, the
    caption and the form heading; no widget, no input frame, no probability
    and no picture.  With both files and at least one age in the reference
    data it ends with Streamlit's [StreamlitMixedNumericTypesError], raised
    by the call that builds the age field (integer bounds with a float value
    and step). *)
Theorem run_stops_at_age_field (b : Browser) (fs : Files) :
  fst (run b fs) <> Ok tt /\
  files (snd (run b fs)) = fs /\
  (forall el, In el (page (snd (run b fs))) -> In el header) /\
  (forall model X_test,
      LGB_pkl fs = Some model -> x_test_csv fs = Some X_test ->
      In "Age (years)" (Pd.columns X_test) -> Pd.rows X_test <> [] ->
      run b fs
      = (Raise "StreamlitMixedNumericTypesError", mkState header fs)).
Proof.
  split.
  - destruct (run_raises b fs) as (e & -> & _). discriminate.
  - destruct (run_page b fs) as [F P].
    split; [exact F|]. split; [exact P|].
    intros model X_test. apply run_mixed_types.
Qed.

Lemma run_stops_at_age_field_witness :
  In "Age (years)" (Pd.columns example_X_test) /\
  Pd.rows example_X_test <> [] /\
  run example_browser example_files
  = (Raise "StreamlitMixedNumericTypesError", mkState header example_files).
Proof.
  assert (Hc : In "Age (years)" (Pd.columns example_X_test))
    by (simpl; tauto).
  assert (Hr : Pd.rows example_X_test <> []) by discriminate.
  split; [exact Hc|]. split; [exact Hr|].
  destruct (run_stops_at_age_field example_browser example_files)
    as (_ & _ & _ & H).
  exact (H example_model example_X_test eq_refl eq_refl Hc Hr).
Defined.

(** ** Which number inputs Streamlit accepts *)

Lemma int_min_refused (X_test : Pd.DataFrame) (col : string) (e : string) :
  int_min X_test col = Raise e -> refused e.
Proof.
  intro H. unfold refused.
  destruct (int_min_outcome X_test col)
    as [(_ & E)|[(_ & _ & E)|(_ & _ & k & E)]];
    rewrite E in H; [| |discriminate]; injection H as <-; simpl; tauto.
Qed.

(** X8.  Of the number inputs of the form, the two whose bounds are integers
    (the age and the plaque burden, [int(...)] and an integer literal) are
    never built: whatever the reference data, the call ends with an
    exception, Streamlit's [StreamlitMixedNumericTypesError] as soon as the
    minimum can be computed.  The two whose four numbers are all floats (the
    IMT and the TyG index) are always accepted: the widget is put on the
    page and returns the number the browser holds. *)
Theorem integer_bounds_refused (b : Browser) (X_test : Pd.DataFrame)
    (s : State) :
  (exists e, widget b X_test "Age (years)" s = (Raise e, s) /\ refused e) /\
  (exists e, widget b X_test "Carotid plaque burden" s = (Raise e, s)
             /\ refused e) /\
  (forall k, int_min X_test "Age (years)" = Ok k ->
     widget b X_test "Age (years)" s
     = (Raise "StreamlitMixedNumericTypesError", s)) /\
  (forall k, int_min X_test "Carotid plaque burden" = Ok k ->
     widget b X_test "Carotid plaque burden" s
     = (Raise "StreamlitMixedNumericTypesError", s)) /\
  widget b X_test "IMT (mm)" s
  = (Ok (entry b "IMT (mm)"),
     mkState
       (page s ++ [NumberInput "IMT (mm)" (PyFloat (Some 0)) (PyFloat (Some 0))
                     (PyFloat (Some (15 # 10)))
                     (PyFloat (Some (Py.double (1 # 10))))])
       (files s)) /\
  widget b X_test "TyG index" s
  = (Ok (entry b "TyG index"),
     mkState
       (page s ++ [NumberInput "TyG index" (PyFloat (Some 0)) (PyFloat (Some 0))
                     (PyFloat (Some 15))
                     (PyFloat (Some (Py.double (1 # 100))))])
       (files s)).
Proof.
  assert (Hb : widget b X_test "Carotid plaque burden" s
               = (match int_min X_test "Carotid plaque burden" with
                  | Ok _ => Raise "StreamlitMixedNumericTypesError"
                  | Raise e => Raise e
                  end, s)).
  { unfold widget. cbn -[int_min round_median].
    unfold int_min, round_median, mbind, lift.
    destruct (Pd.getitem X_test "Carotid plaque burden") as [col|e];
      cbn [bind]; [|reflexivity].
    destruct (Py.int (Pd.min col)) as [k|e]; reflexivity. }
  assert (Hm : refused "StreamlitMixedNumericTypesError")
    by (unfold refused; simpl; tauto).
  split; [|split; [|split; [|split; [|split]]]].
  - rewrite age_widget_outcome.
    destruct (int_min X_test "Age (years)") as [k|e] eqn:E;
      eexists; (split; [reflexivity|]);
      [exact Hm|exact (int_min_refused _ _ _ E)].
  - rewrite Hb.
    destruct (int_min X_test "Carotid plaque burden") as [k|e] eqn:E;
      eexists; (split; [reflexivity|]);
      [exact Hm|exact (int_min_refused _ _ _ E)].
  - intros k E. now rewrite age_widget_outcome, E.
  - intros k E. now rewrite Hb, E.
  - reflexivity.
  - reflexivity.
Qed.

Lemma integer_bounds_refused_witness :
  int_min example_X_test "Carotid plaque burden" = Ok 2%Z /\
  widget example_browser example_X_test "Carotid plaque burden"
    (mkState header example_files)
  = (Raise "StreamlitMixedNumericTypesError", mkState header example_files).
Proof.
  assert (H : int_min example_X_test "Carotid plaque burden" = Ok 2%Z)
    by reflexivity.
  split; [exact H|].
  destruct (integer_bounds_refused example_browser example_X_test
              (mkState header example_files)) as (_ & _ & _ & Hb & _).
  exact (Hb 2%Z H).
Defined.

(** ** When the explanation step fails *)

Lemma select_attribution_raises (sv : shap_output) (ev : ndarray) (e : string) :
  select_attribution sv ev = Raise e -> e = "IndexError".
Proof.
  assert (I : forall (A : Type) (l : list A) i e',
             Py.index l i = Raise e' -> e' = "IndexError").
  { intros A l i e' H. unfold Py.index in H.
    destruct (_ && _)%bool; [destruct (nth_error _ _); [discriminate|]|];
      now injection H as <-. }
  unfold select_attribution. destruct sv as [per_class|a]; [|discriminate].
  destruct (Py.index per_class 1%Z) as [x|e'] eqn:E1; cbn [bind].
  - unfold item1. destruct ev as [x'|items].
    + cbn [bind]. intro H. now injection H as <-.
    + destruct (Py.index items 1%Z) as [y|e'] eqn:E2; cbn [bind];
        [discriminate|].
      intro H. injection H as <-. exact (I _ _ _ _ E2).
  - intro H. injection H as <-. exact (I _ _ _ _ E1).
Qed.

(** X9.  In the submitted block the prediction is shown before the
    explanation is computed.  When the selection of the attribution fails (a
    per-class list or expected values without an entry at index 1), the
    block ends with [IndexError] after the input frame, the probability text
    and the tier text have been put on the page; no picture is written or
    shown. *)
Theorem explanation_failure_after_prediction (model : Model)
    (X_test : Pd.DataFrame) (inputs : list Q) (s : State)
    (c : Classification) (e : string)
    (Hlen : length inputs = 6%nat)
    (Hc : classify model X_test
            (Pd.mkDataFrame feature_names [map Py.round2 inputs]) = Ok c)
    (Hsel : select_attribution
              (shap_values (TreeExplainer model)
                 (Pd.mkDataFrame feature_names [map Py.round2 inputs]))
              (expected_value (TreeExplainer model)) = Raise e) :
  e = "IndexError" /\
  submitted_block model X_test inputs s
  = (Raise e,
     mkState
       (page s
          ++ [ Subheader "Model Input Features";
               Dataframe (Pd.mkDataFrame feature_names [map Py.round2 inputs]);
               Subheader "Prediction Result & Explanation";
               Markdown ("**Estimated probability:** "
                           ++ Fmt.format_2f (probability c) ++ "%");
               Markdown (risk_level c ++ nl ++ nl ++ suggestion c);
               Subheader "SHAP Force Plot Explanation" ])
       (files s)).
Proof.
  split; [exact (select_attribution_raises _ _ _ Hsel)|].
  rewrite (submitted_block_outcome _ _ _ _ Hlen).
  unfold block_outcome. rewrite Hc, Hsel. reflexivity.
Qed.

Lemma explanation_failure_after_prediction_witness :
  length example_inputs = 6%nat /\
  select_attribution
    (shap_values (TreeExplainer one_class_model)
       (Pd.mkDataFrame feature_names [map Py.round2 example_inputs]))
    (expected_value (TreeExplainer one_class_model)) = Raise "IndexError" /\
  fst (submitted_block one_class_model example_X_test example_inputs
         (mkState header example_files)) = Raise "IndexError" /\
  files (snd (submitted_block one_class_model example_X_test example_inputs
                (mkState header example_files))) = example_files.
Proof.
  split; [reflexivity|]. split; [reflexivity|].
  destruct (explanation_failure_after_prediction one_class_model
              example_X_test example_inputs (mkState header example_files)
              example_classification "IndexError" eq_refl
              example_classify eq_refl) as [_ ->].
  split; reflexivity.
Defined.

(** ** Rounding keeps a value within its bounds *)

Lemma round2_in_bounds (bounds : Q * Q) (x : Q) :
  Py.round2 (fst bounds) == fst bounds ->
  Py.round2 (snd bounds) == snd bounds ->
  in_bounds bounds x -> in_bounds bounds (Py.round2 x).
Proof.
  intros Hlo Hhi H. unfold in_bounds in *.
  now apply round2_between.
Qed.

(** X13.  Rounding to two decimals never moves a value out of the range
    its field declares.  When the six inputs lie within the declared
    bounds (an age between a non-negative minimum and 100, Hypertension in
    [0, 1], the IMT in [0, 1.5], the TyG index in [0, 15], the plaque burden
    between a non-negative minimum and 15, the plaque thickness in [0, 7]),
    so do the cells of the rounded frame, the ones the model is evaluated
    on. *)
Theorem model_input_within_bounds (age_minimum burden_minimum : Z)
    (inputs : list Q)
    (Hage : (0 <= age_minimum)%Z) (Hburden : (0 <= burden_minimum)%Z)
    (Hin : Forall2 in_bounds (declared_bounds age_minimum burden_minimum)
             inputs) :
  Pd.round (Pd.mkDataFrame feature_names [inputs])
  = Pd.mkDataFrame feature_names [map Py.round2 inputs] /\
  Forall2 in_bounds (declared_bounds age_minimum burden_minimum)
    (map Py.round2 inputs).
Proof.
  split; [reflexivity|].
  assert (Fix : forall k, (0 <= k)%Z -> forall x hi,
             in_bounds (inject_Z k, hi) x -> hi <= 100 ->
             Py.round2 (inject_Z k) == inject_Z k).
  { intros k Hk x hi [L U] Hhi. cbn [fst snd] in L, U.
    apply round2_integer.
    assert (K : inject_Z k <= inject_Z 100)
      by (change (inject_Z 100) with 100; lra).
    rewrite <- Zle_Qle in K.
    change (2 ^ 46)%Z with 70368744177664%Z. lia. }
  unfold declared_bounds in *.
  repeat match goal with
         | H : Forall2 _ (_ :: _) _ |- _ => inversion H; subst; clear H
         | H : Forall2 _ [] _ |- _ => inversion H; subst; clear H
         end.
  cbn [map].
  repeat apply Forall2_cons; [| | | | | |apply Forall2_nil].
  - apply round2_in_bounds; cbn [fst snd];
      [eapply Fix; eauto; lra|vm_compute; reflexivity|assumption].
  - apply round2_in_bounds; cbn [fst snd];
      [vm_compute; reflexivity|vm_compute; reflexivity|assumption].
  - apply round2_in_bounds; cbn [fst snd];
      [vm_compute; reflexivity|vm_compute; reflexivity|assumption].
  - apply round2_in_bounds; cbn [fst snd];
      [vm_compute; reflexivity|vm_compute; reflexivity|assumption].
  - apply round2_in_bounds; cbn [fst snd];
      [eapply Fix; eauto; lra|vm_compute; reflexivity|assumption].
  - apply round2_in_bounds; cbn [fst snd];
      [vm_compute; reflexivity|vm_compute; reflexivity|assumption].
Qed.

Lemma model_input_within_bounds_witness :
  Forall2 in_bounds (declared_bounds 40 2) example_inputs /\
  Forall2 in_bounds (declared_bounds 40 2) (map Py.round2 example_inputs).
Proof.
  assert (H : Forall2 in_bounds (declared_bounds 40 2) example_inputs).
  { unfold declared_bounds, example_inputs. cbn [map feature_names].
    repeat apply Forall2_cons; try apply Forall2_nil;
      split; vm_compute; discriminate. }
  split; [exact H|].
  exact (proj2 (model_input_within_bounds 40 2 example_inputs
                  ltac:(lia) ltac:(lia) H)).
Defined.
